(** * Shallow embedding of [validate_snapshot_command.py] and of the greeter
    [samples/python-getting-started/app.py].

    Text is modelled as [string], the bytes of its UTF-8 encoding (the
    regular expression decodes them back to code points); console
    output as the list of lines passed to [print]; Python exceptions as the
    type [exn]; a computation that prints and may raise as the writer/error
    monad [M]. *)

From Stdlib Require Import String Ascii List Bool Arith ZArith Lia
  Numbers.DecimalString.
Import ListNotations.
Open Scope string_scope.
Open Scope list_scope.

(** ** Python runtime: exceptions and the print/raise monad *)

Inductive os_errno := ENOENT | EACCES | EISDIR | ELOOP.

Inductive exn :=
| OSError (e : os_errno)
| ValueError
| UnicodeDecodeError.

(** Lines printed so far, and either the raised exception or the value. *)
Definition M (A : Type) : Type := (list string * (exn + A))%type.

Definition ret {A} (a : A) : M A := ([], inr a).
Definition raise {A} (e : exn) : M A := ([], inl e).
Definition print (s : string) : M unit := ([s], inr tt).

Definition bind {A B} (m : M A) (f : A -> M B) : M B :=
  match m with
  | (o, inl e) => (o, inl e)
  | (o, inr a) => let (o', r) := f a in (o ++ o', r)
  end.

Notation "x <- m ;; k" := (bind m (fun x => k))
  (at level 61, m at next level, right associativity).
Notation "m ;;; k" := (bind m (fun _ => k))
  (at level 61, right associativity).

(** Lift a pure [exn + A] result (no output) into [M]. *)
Definition lift {A} (r : exn + A) : M A := ([], r).

(** ** Filesystem and the [os] / [open] primitives *)

Inductive node :=
| Reg (perm_read : bool) (text : option string)
    (** a regular file; [text] is the UTF-8 encoding of its contents as
        [open] decodes them (UTF-8 locale), [None] when they do not
        decode *)
| Dir
| Symlink (target : string).

Definition fs := string -> option node.

Definition has_nul (p : string) : bool :=
  existsb (fun c => Ascii.eqb c (ascii_of_nat 0)) (list_ascii_of_string p).

(** Path resolution following symbolic links, at most [fuel] hops
    (ELOOP beyond, as the kernel does after 40 links). *)
Fixpoint resolve (fuel : nat) (st : fs) (p : string) : exn + node :=
  match fuel with
  | 0 => inl (OSError ELOOP)
  | S f =>
      match st p with
      | None => inl (OSError ENOENT)
      | Some (Symlink t) => resolve f st t
      | Some n => inr n
      end
  end.

(** [os.stat]: an embedded NUL raises ValueError before any lookup. *)
Definition os_stat (st : fs) (p : string) : exn + node :=
  if has_nul p then inl ValueError else resolve 40 st p.

(** [os.path.exists] (CPython [genericpath.exists]):
    [try: os.stat(path) except (OSError, ValueError): return False;
     return True]. *)
Definition os_path_exists (st : fs) (p : string) : M bool :=
  match os_stat st p with
  | inr _ => ret true
  | inl (OSError _) => ret false
  | inl ValueError => ret false
  | inl e => raise e
  end.

(** [with open(p, 'r') as f: content = f.read()]. *)
Definition read_text (st : fs) (p : string) : M string :=
  match os_stat st p with
  | inl e => raise e
  | inr Dir => raise (OSError EISDIR)
  | inr (Symlink _) => raise (OSError ELOOP)
  | inr (Reg false _) => raise (OSError EACCES)
  | inr (Reg true None) => raise UnicodeDecodeError
  | inr (Reg true (Some c)) => ret c
  end.

(** ** String helpers for Python's [str] methods *)

(** [content.count(ch)] for a one-character needle. *)
Fixpoint count_char (ch : ascii) (s : string) : nat :=
  match s with
  | EmptyString => 0
  | String c t => (if Ascii.eqb c ch then 1 else 0) + count_char ch t
  end.

(** [sub in s]. *)
Fixpoint contains (sub s : string) : bool :=
  String.prefix sub s ||
  match s with
  | EmptyString => false
  | String _ t => contains sub t
  end.

(** [s.endswith(suf)]. *)
Definition endswith (suf s : string) : bool :=
  let n := String.length s in
  let m := String.length suf in
  Nat.leb m n && String.eqb (substring (n - m) m s) suf.

(** [str(n)] for a non-negative [int]. *)
Definition str_of_nat (n : nat) : string :=
  NilEmpty.string_of_uint (Nat.to_uint n).

(** ["=" * n]. *)
Fixpoint repeat_str (s : string) (n : nat) : string :=
  match n with
  | 0 => ""
  | S k => s ++ repeat_str s k
  end.

Definition nl : string := String (ascii_of_nat 10) "".

(** ** [re.search(r'^package\s+\w+', content, re.MULTILINE)]

    The classes of a [str] pattern use Unicode matching. The tables list
    the code points of each class as closed intervals, as CPython 3.11
    (Unicode 14.0) decides them; the tables of letters and digits used to
    state properties follow the same data. *)

(** Code points matched by [\s]: [Py_UNICODE_ISSPACE]. *)
Definition space_ranges : list (Z * Z) := [
  (9, 13); (28, 32); (133, 133); (160, 160); (5760, 5760); (8192, 8202);
  (8232, 8233); (8239, 8239); (8287, 8287); (12288, 12288)
]%Z.

(** Code points matched by [\w]: [Py_UNICODE_ISALNUM] or [_]. *)
Definition word_ranges : list (Z * Z) := [
  (48, 57); (65, 90); (95, 95); (97, 122); (170, 170); (178, 179);
  (181, 181); (185, 186); (188, 190); (192, 214); (216, 246); (248, 705);
  (710, 721); (736, 740); (748, 748); (750, 750); (880, 884); (886, 887);
  (890, 893); (895, 895); (902, 902); (904, 906); (908, 908); (910, 929);
  (931, 1013); (1015, 1153); (1162, 1327); (1329, 1366); (1369, 1369);
  (1376, 1416); (1488, 1514); (1519, 1522); (1568, 1610); (1632, 1641);
  (1646, 1647); (1649, 1747); (1749, 1749); (1765, 1766); (1774, 1788);
  (1791, 1791); (1808, 1808); (1810, 1839); (1869, 1957); (1969, 1969);
  (1984, 2026); (2036, 2037); (2042, 2042); (2048, 2069); (2074, 2074);
  (2084, 2084); (2088, 2088); (2112, 2136); (2144, 2154); (2160, 2183);
  (2185, 2190); (2208, 2249); (2308, 2361); (2365, 2365); (2384, 2384);
  (2392, 2401); (2406, 2415); (2417, 2432); (2437, 2444); (2447, 2448);
  (2451, 2472); (2474, 2480); (2482, 2482); (2486, 2489); (2493, 2493);
  (2510, 2510); (2524, 2525); (2527, 2529); (2534, 2545); (2548, 2553);
  (2556, 2556); (2565, 2570); (2575, 2576); (2579, 2600); (2602, 2608);
  (2610, 2611); (2613, 2614); (2616, 2617); (2649, 2652); (2654, 2654);
  (2662, 2671); (2674, 2676); (2693, 2701); (2703, 2705); (2707, 2728);
  (2730, 2736); (2738, 2739); (2741, 2745); (2749, 2749); (2768, 2768);
  (2784, 2785); (2790, 2799); (2809, 2809); (2821, 2828); (2831, 2832);
  (2835, 2856); (2858, 2864); (2866, 2867); (2869, 2873); (2877, 2877);
  (2908, 2909); (2911, 2913); (2918, 2927); (2929, 2935); (2947, 2947);
  (2949, 2954); (2958, 2960); (2962, 2965); (2969, 2970); (2972, 2972);
  (2974, 2975); (2979, 2980); (2984, 2986); (2990, 3001); (3024, 3024);
  (3046, 3058); (3077, 3084); (3086, 3088); (3090, 3112); (3114, 3129);
  (3133, 3133); (3160, 3162); (3165, 3165); (3168, 3169); (3174, 3183);
  (3192, 3198); (3200, 3200); (3205, 3212); (3214, 3216); (3218, 3240);
  (3242, 3251); (3253, 3257); (3261, 3261); (3293, 3294); (3296, 3297);
  (3302, 3311); (3313, 3314); (3332, 3340); (3342, 3344); (3346, 3386);
  (3389, 3389); (3406, 3406); (3412, 3414); (3416, 3425); (3430, 3448);
  (3450, 3455); (3461, 3478); (3482, 3505); (3507, 3515); (3517, 3517);
  (3520, 3526); (3558, 3567); (3585, 3632); (3634, 3635); (3648, 3654);
  (3664, 3673); (3713, 3714); (3716, 3716); (3718, 3722); (3724, 3747);
  (3749, 3749); (3751, 3760); (3762, 3763); (3773, 3773); (3776, 3780);
  (3782, 3782); (3792, 3801); (3804, 3807); (3840, 3840); (3872, 3891);
  (3904, 3911); (3913, 3948); (3976, 3980); (4096, 4138); (4159, 4169);
  (4176, 4181); (4186, 4189); (4193, 4193); (4197, 4198); (4206, 4208);
  (4213, 4225); (4238, 4238); (4240, 4249); (4256, 4293); (4295, 4295);
  (4301, 4301); (4304, 4346); (4348, 4680); (4682, 4685); (4688, 4694);
  (4696, 4696); (4698, 4701); (4704, 4744); (4746, 4749); (4752, 4784);
  (4786, 4789); (4792, 4798); (4800, 4800); (4802, 4805); (4808, 4822);
  (4824, 4880); (4882, 4885); (4888, 4954); (4969, 4988); (4992, 5007);
  (5024, 5109); (5112, 5117); (5121, 5740); (5743, 5759); (5761, 5786);
  (5792, 5866); (5870, 5880); (5888, 5905); (5919, 5937); (5952, 5969);
  (5984, 5996); (5998, 6000); (6016, 6067); (6103, 6103); (6108, 6108);
  (6112, 6121); (6128, 6137); (6160, 6169); (6176, 6264); (6272, 6276);
  (6279, 6312); (6314, 6314); (6320, 6389); (6400, 6430); (6470, 6509);
  (6512, 6516); (6528, 6571); (6576, 6601); (6608, 6618); (6656, 6678);
  (6688, 6740); (6784, 6793); (6800, 6809); (6823, 6823); (6917, 6963);
  (6981, 6988); (6992, 7001); (7043, 7072); (7086, 7141); (7168, 7203);
  (7232, 7241); (7245, 7293); (7296, 7304); (7312, 7354); (7357, 7359);
  (7401, 7404); (7406, 7411); (7413, 7414); (7418, 7418); (7424, 7615);
  (7680, 7957); (7960, 7965); (7968, 8005); (8008, 8013); (8016, 8023);
  (8025, 8025); (8027, 8027); (8029, 8029); (8031, 8061); (8064, 8116);
  (8118, 8124); (8126, 8126); (8130, 8132); (8134, 8140); (8144, 8147);
  (8150, 8155); (8160, 8172); (8178, 8180); (8182, 8188); (8304, 8305);
  (8308, 8313); (8319, 8329); (8336, 8348); (8450, 8450); (8455, 8455);
  (8458, 8467); (8469, 8469); (8473, 8477); (8484, 8484); (8486, 8486);
  (8488, 8488); (8490, 8493); (8495, 8505); (8508, 8511); (8517, 8521);
  (8526, 8526); (8528, 8585); (9312, 9371); (9450, 9471); (10102, 10131);
  (11264, 11492); (11499, 11502); (11506, 11507); (11517, 11517);
  (11520, 11557); (11559, 11559); (11565, 11565); (11568, 11623);
  (11631, 11631); (11648, 11670); (11680, 11686); (11688, 11694);
  (11696, 11702); (11704, 11710); (11712, 11718); (11720, 11726);
  (11728, 11734); (11736, 11742); (11823, 11823); (12293, 12295);
  (12321, 12329); (12337, 12341); (12344, 12348); (12353, 12438);
  (12445, 12447); (12449, 12538); (12540, 12543); (12549, 12591);
  (12593, 12686); (12690, 12693); (12704, 12735); (12784, 12799);
  (12832, 12841); (12872, 12879); (12881, 12895); (12928, 12937);
  (12977, 12991); (13312, 19903); (19968, 42124); (42192, 42237);
  (42240, 42508); (42512, 42539); (42560, 42606); (42623, 42653);
  (42656, 42735); (42775, 42783); (42786, 42888); (42891, 42954);
  (42960, 42961); (42963, 42963); (42965, 42969); (42994, 43009);
  (43011, 43013); (43015, 43018); (43020, 43042); (43056, 43061);
  (43072, 43123); (43138, 43187); (43216, 43225); (43250, 43255);
  (43259, 43259); (43261, 43262); (43264, 43301); (43312, 43334);
  (43360, 43388); (43396, 43442); (43471, 43481); (43488, 43492);
  (43494, 43518); (43520, 43560); (43584, 43586); (43588, 43595);
  (43600, 43609); (43616, 43638); (43642, 43642); (43646, 43695);
  (43697, 43697); (43701, 43702); (43705, 43709); (43712, 43712);
  (43714, 43714); (43739, 43741); (43744, 43754); (43762, 43764);
  (43777, 43782); (43785, 43790); (43793, 43798); (43808, 43814);
  (43816, 43822); (43824, 43866); (43868, 43881); (43888, 44002);
  (44016, 44025); (44032, 55203); (55216, 55238); (55243, 55291);
  (63744, 64109); (64112, 64217); (64256, 64262); (64275, 64279);
  (64285, 64285); (64287, 64296); (64298, 64310); (64312, 64316);
  (64318, 64318); (64320, 64321); (64323, 64324); (64326, 64433);
  (64467, 64829); (64848, 64911); (64914, 64967); (65008, 65019);
  (65136, 65140); (65142, 65276); (65296, 65305); (65313, 65338);
  (65345, 65370); (65382, 65470); (65474, 65479); (65482, 65487);
  (65490, 65495); (65498, 65500); (65536, 65547); (65549, 65574);
  (65576, 65594); (65596, 65597); (65599, 65613); (65616, 65629);
  (65664, 65786); (65799, 65843); (65856, 65912); (65930, 65931);
  (66176, 66204); (66208, 66256); (66273, 66299); (66304, 66339);
  (66349, 66378); (66384, 66421); (66432, 66461); (66464, 66499);
  (66504, 66511); (66513, 66517); (66560, 66717); (66720, 66729);
  (66736, 66771); (66776, 66811); (66816, 66855); (66864, 66915);
  (66928, 66938); (66940, 66954); (66956, 66962); (66964, 66965);
  (66967, 66977); (66979, 66993); (66995, 67001); (67003, 67004);
  (67072, 67382); (67392, 67413); (67424, 67431); (67456, 67461);
  (67463, 67504); (67506, 67514); (67584, 67589); (67592, 67592);
  (67594, 67637); (67639, 67640); (67644, 67644); (67647, 67669);
  (67672, 67702); (67705, 67742); (67751, 67759); (67808, 67826);
  (67828, 67829); (67835, 67867); (67872, 67897); (67968, 68023);
  (68028, 68047); (68050, 68096); (68112, 68115); (68117, 68119);
  (68121, 68149); (68160, 68168); (68192, 68222); (68224, 68255);
  (68288, 68295); (68297, 68324); (68331, 68335); (68352, 68405);
  (68416, 68437); (68440, 68466); (68472, 68497); (68521, 68527);
  (68608, 68680); (68736, 68786); (68800, 68850); (68858, 68899);
  (68912, 68921); (69216, 69246); (69248, 69289); (69296, 69297);
  (69376, 69415); (69424, 69445); (69457, 69460); (69488, 69505);
  (69552, 69579); (69600, 69622); (69635, 69687); (69714, 69743);
  (69745, 69746); (69749, 69749); (69763, 69807); (69840, 69864);
  (69872, 69881); (69891, 69926); (69942, 69951); (69956, 69956);
  (69959, 69959); (69968, 70002); (70006, 70006); (70019, 70066);
  (70081, 70084); (70096, 70106); (70108, 70108); (70113, 70132);
  (70144, 70161); (70163, 70187); (70272, 70278); (70280, 70280);
  (70282, 70285); (70287, 70301); (70303, 70312); (70320, 70366);
  (70384, 70393); (70405, 70412); (70415, 70416); (70419, 70440);
  (70442, 70448); (70450, 70451); (70453, 70457); (70461, 70461);
  (70480, 70480); (70493, 70497); (70656, 70708); (70727, 70730);
  (70736, 70745); (70751, 70753); (70784, 70831); (70852, 70853);
  (70855, 70855); (70864, 70873); (71040, 71086); (71128, 71131);
  (71168, 71215); (71236, 71236); (71248, 71257); (71296, 71338);
  (71352, 71352); (71360, 71369); (71424, 71450); (71472, 71483);
  (71488, 71494); (71680, 71723); (71840, 71922); (71935, 71942);
  (71945, 71945); (71948, 71955); (71957, 71958); (71960, 71983);
  (71999, 71999); (72001, 72001); (72016, 72025); (72096, 72103);
  (72106, 72144); (72161, 72161); (72163, 72163); (72192, 72192);
  (72203, 72242); (72250, 72250); (72272, 72272); (72284, 72329);
  (72349, 72349); (72368, 72440); (72704, 72712); (72714, 72750);
  (72768, 72768); (72784, 72812); (72818, 72847); (72960, 72966);
  (72968, 72969); (72971, 73008); (73030, 73030); (73040, 73049);
  (73056, 73061); (73063, 73064); (73066, 73097); (73112, 73112);
  (73120, 73129); (73440, 73458); (73648, 73648); (73664, 73684);
  (73728, 74649); (74752, 74862); (74880, 75075); (77712, 77808);
  (77824, 78894); (82944, 83526); (92160, 92728); (92736, 92766);
  (92768, 92777); (92784, 92862); (92864, 92873); (92880, 92909);
  (92928, 92975); (92992, 92995); (93008, 93017); (93019, 93025);
  (93027, 93047); (93053, 93071); (93760, 93846); (93952, 94026);
  (94032, 94032); (94099, 94111); (94176, 94177); (94179, 94179);
  (94208, 100343); (100352, 101589); (101632, 101640); (110576, 110579);
  (110581, 110587); (110589, 110590); (110592, 110882); (110928, 110930);
  (110948, 110951); (110960, 111355); (113664, 113770); (113776, 113788);
  (113792, 113800); (113808, 113817); (119520, 119539); (119648, 119672);
  (119808, 119892); (119894, 119964); (119966, 119967); (119970, 119970);
  (119973, 119974); (119977, 119980); (119982, 119993); (119995, 119995);
  (119997, 120003); (120005, 120069); (120071, 120074); (120077, 120084);
  (120086, 120092); (120094, 120121); (120123, 120126); (120128, 120132);
  (120134, 120134); (120138, 120144); (120146, 120485); (120488, 120512);
  (120514, 120538); (120540, 120570); (120572, 120596); (120598, 120628);
  (120630, 120654); (120656, 120686); (120688, 120712); (120714, 120744);
  (120746, 120770); (120772, 120779); (120782, 120831); (122624, 122654);
  (123136, 123180); (123191, 123197); (123200, 123209); (123214, 123214);
  (123536, 123565); (123584, 123627); (123632, 123641); (124896, 124902);
  (124904, 124907); (124909, 124910); (124912, 124926); (124928, 125124);
  (125127, 125135); (125184, 125251); (125259, 125259); (125264, 125273);
  (126065, 126123); (126125, 126127); (126129, 126132); (126209, 126253);
  (126255, 126269); (126464, 126467); (126469, 126495); (126497, 126498);
  (126500, 126500); (126503, 126503); (126505, 126514); (126516, 126519);
  (126521, 126521); (126523, 126523); (126530, 126530); (126535, 126535);
  (126537, 126537); (126539, 126539); (126541, 126543); (126545, 126546);
  (126548, 126548); (126551, 126551); (126553, 126553); (126555, 126555);
  (126557, 126557); (126559, 126559); (126561, 126562); (126564, 126564);
  (126567, 126570); (126572, 126578); (126580, 126583); (126585, 126588);
  (126590, 126590); (126592, 126601); (126603, 126619); (126625, 126627);
  (126629, 126633); (126635, 126651); (127232, 127244); (130032, 130041);
  (131072, 173791); (173824, 177976); (177984, 178205); (178208, 183969);
  (183984, 191456); (194560, 195101); (196608, 201546)
]%Z.

Definition in_ranges (tbl : list (Z * Z)) (c : Z) : bool :=
  existsb (fun r => (fst r <=? c)%Z && (c <=? snd r)%Z) tbl.

(** [\s] and [\w] of a [str] pattern (Unicode matching, the default):
    [SRE_CATEGORY_UNI_SPACE] and [SRE_CATEGORY_UNI_WORD]. *)
Definition py_isspace (c : Z) : bool := in_ranges space_ranges c.

Definition py_isword (c : Z) : bool := in_ranges word_ranges c.

(** Decoding the UTF-8 bytes of the text back to the code points of the
    [str] the regex runs on. [need] continuation bytes are still expected
    for the code point whose bits so far are [acc]; a malformed sequence
    (which [open] in text mode would already have refused) yields
    [bad_cp], a value outside every class. *)
Definition bad_cp : Z := (-1)%Z.

Definition byte_value (b : ascii) : Z := Z.of_nat (nat_of_ascii b).

Definition utf8_lead (n : Z) : list Z * nat * Z :=
  if (n <? 128)%Z then ([n], O, 0%Z)
  else if (n <? 192)%Z then ([bad_cp], O, 0%Z)
  else if (n <? 224)%Z then ([], 1, (n - 192)%Z)
  else if (n <? 240)%Z then ([], 2, (n - 224)%Z)
  else if (n <? 248)%Z then ([], 3, (n - 240)%Z)
  else ([bad_cp], O, 0%Z).

Definition utf8_step (need : nat) (acc : Z) (b : ascii) : list Z * nat * Z :=
  let n := byte_value b in
  match need with
  | O => utf8_lead n
  | S k =>
      if ((128 <=? n) && (n <? 192))%Z then
        let acc' := (acc * 64 + (n - 128))%Z in
        match k with O => ([acc'], O, 0%Z) | S _ => ([], k, acc') end
      else let '(o, k', a') := utf8_lead n in (bad_cp :: o, k', a')
  end.

Fixpoint utf8_dec (need : nat) (acc : Z) (s : string) : list Z :=
  match s with
  | EmptyString => match need with O => [] | S _ => [bad_cp] end
  | String b t => let '(o, k, a) := utf8_step need acc b in o ++ utf8_dec k a t
  end.

Definition utf8_decode (s : string) : list Z := utf8_dec O 0%Z s.

(** After [\s] has consumed one character: more [\s], then one [\w]
    ([\s+\w+] with backtracking matches iff such a split exists, since the
    two classes are disjoint and [\w+] only needs its first character). *)
Fixpoint spaces_then_word (l : list Z) : bool :=
  match l with
  | [] => false
  | c :: t => if py_isword c then true
              else if py_isspace c then spaces_then_word t else false
  end.

(** [package\s+\w+] anchored at the start of [s]. *)
Definition match_here (s : string) : bool :=
  String.prefix "package" s &&
  match utf8_decode (substring 7 (String.length s - 7) s) with
  | c :: t => py_isspace c && spaces_then_word t
  | [] => false
  end.

(** Search with [re.MULTILINE]: [^] holds at the start of the text and right
    after each ['\n']; [bol] says whether the current position is such a
    place. A byte after ['\n'] starts a character in UTF-8. *)
Fixpoint search_ml (bol : bool) (s : string) : bool :=
  (bol && match_here s) ||
  match s with
  | EmptyString => false
  | String c t => search_ml (Ascii.eqb c (ascii_of_nat 10)) t
  end.

Definition package_re_search (content : string) : bool :=
  search_ml true content.

(** ** [check_file_exists] and [check_go_syntax] *)

Definition check_file_exists (st : fs) (filepath : string) : M bool :=
  os_path_exists st filepath.

Definition braces_msg (o c : nat) : string :=
  "Unmatched braces: " ++ str_of_nat o ++ " open, " ++ str_of_nat c ++ " close".

Definition parens_msg (o c : nat) : string :=
  "Unmatched parentheses: " ++ str_of_nat o ++ " open, " ++ str_of_nat c ++ " close".

Definition missing_package_msg : string := "Missing package declaration".

(** The body of [check_go_syntax] after [content = f.read()]: the list
    [issues] built by the three appends, in source order. *)
Definition go_syntax_issues (content : string) : list string :=
  let issues := [] in
  let open_braces := count_char "{" content in
  let close_braces := count_char "}" content in
  let issues := if Nat.eqb open_braces close_braces then issues
                else issues ++ [braces_msg open_braces close_braces] in
  let open_parens := count_char "(" content in
  let close_parens := count_char ")" content in
  let issues := if Nat.eqb open_parens close_parens then issues
                else issues ++ [parens_msg open_parens close_parens] in
  let issues := if negb (package_re_search content) then
                  issues ++ [missing_package_msg] else issues in
  issues.

Definition check_go_syntax (st : fs) (filepath : string) : M (list string) :=
  content <- read_text st filepath ;;
  ret (go_syntax_issues content).

(** ** [validate_snapshot_command] *)

Definition files_to_check : list string :=
  [ "/workspace/cmd/snapshot/snapshot.go";
    "/workspace/cmd/snapshot/upload.go";
    "/workspace/cmd/snapshot/upload_test.go";
    "/workspace/cmd/snapshot/README.md" ].

Definition main_go_path : string := "/workspace/main.go".

Definition exists_line (p : string) : string := "✓ " ++ p ++ " exists".
Definition missing_line (p : string) : string := "✗ " ++ p ++ " missing".
Definition issue_line (i : string) : string := "    - " ++ i.

Fixpoint print_issues (issues : list string) : M unit :=
  match issues with
  | [] => ret tt
  | i :: r => print (issue_line i) ;;; print_issues r
  end.

(** One iteration of the [for filepath in files_to_check] loop. *)
Definition check_one (st : fs) (filepath : string) : M unit :=
  b <- check_file_exists st filepath ;;
  if b then
    print (exists_line filepath) ;;;
    (if endswith ".go" filepath then
       issues <- check_go_syntax st filepath ;;
       match issues with
       | [] => print "  ✓ Basic syntax validation passed"
       | _ :: _ => print "  ⚠ Syntax issues found:" ;;; print_issues issues
       end
     else ret tt)
  else print (missing_line filepath).

Fixpoint check_all (st : fs) (l : list string) : M unit :=
  match l with
  | [] => ret tt
  | p :: r => check_one st p ;;; check_all st r
  end.

Definition import_ok_line := "✓ Snapshot import added to main.go".
Definition import_missing_line := "✗ Snapshot import missing from main.go".
Definition command_ok_line := "✓ Snapshot command added to root command".
Definition command_missing_line := "✗ Snapshot command not added to root command".

Definition check_main_go (st : fs) : M unit :=
  b <- check_file_exists st main_go_path ;;
  if b then
    main_content <- read_text st main_go_path ;;
    (if contains "github.com/okteto/okteto/cmd/snapshot" main_content
     then print import_ok_line else print import_missing_line) ;;;
    (if contains "snapshot.Snapshot(" main_content
     then print command_ok_line else print command_missing_line)
  else ret tt.

(** The two closing blocks, one string per [print] call. *)
Definition summary_lines : list string :=
  [ String.append nl "Validation Summary:";
    "- Command structure: ✓ Created";
    "- Upload subcommand: ✓ Implemented";
    "- Progress tracking: ✓ Using pb/v3";
    "- Kubernetes integration: ✓ Using existing patterns";
    "- Volume snapshots: ✓ Using snapshot.storage.k8s.io/v1";
    "- CLI integration: ✓ Added to main.go";
    String.append nl "Features implemented:";
    "1. ✓ Directory size calculation";
    "2. ✓ PVC creation with size override";
    "3. ✓ Temporary pod creation";
    "4. ✓ kubectl cp with progress tracking";
    "5. ✓ VolumeSnapshot creation";
    "6. ✓ Snapshot readiness monitoring";
    "7. ✓ Resource cleanup";
    "8. ✓ Custom snapshot naming" ].

Fixpoint print_lines (l : list string) : M unit :=
  match l with
  | [] => ret tt
  | s :: r => print s ;;; print_lines r
  end.

Definition validate_snapshot_command (st : fs) : M unit :=
  print "Validating Okteto Snapshot Command Implementation..." ;;;
  print (repeat_str "=" 50) ;;;
  check_all st files_to_check ;;;
  check_main_go st ;;;
  print_lines summary_lines.

(** [if __name__ == "__main__": validate_snapshot_command()]: the process
    prints the lines and exits with 0, or with 1 on an uncaught exception. *)
Definition run_script (st : fs) : list string * nat :=
  let (out, r) := validate_snapshot_command st in
  (out, match r with inl _ => 1 | inr _ => 0 end).

(** ** The greeter ([app.py]) *)

Record request := {
  req_method : string;
  req_path : string;
  req_query : list (string * string);
  req_headers : list (string * string) }.

Record response := { status : nat; body : string }.

Definition hello_world (_ : unit) : string :=
  let msg := "Hello World!" in msg.

(** Flask dispatch for the single rule [@app.route('/')] (methods GET, with
    HEAD and OPTIONS added by Flask); a [str] return value becomes a 200
    response with that body. *)
Definition app (req : request) : response :=
  if String.eqb (req_path req) "/" then
    if String.eqb (req_method req) "GET" then
      {| status := 200; body := hello_world tt |}
    else if String.eqb (req_method req) "HEAD" then
      {| status := 200; body := "" |}
    else if String.eqb (req_method req) "OPTIONS" then
      {| status := 200; body := "" |}
    else {| status := 405; body := "" |}
  else {| status := 404; body := "" |}.

(** ** Notions used to state the properties *)

(** The UTF-8 encoding of a code point and of a sequence of them
    ([str.encode('utf-8')]). *)
Definition byte_char (n : Z) : ascii := ascii_of_nat (Z.to_nat n).

Definition utf8_encode_cp (c : Z) : string :=
  if (c <? 128)%Z then String (byte_char c) EmptyString
  else if (c <? 2048)%Z then
    String (byte_char (192 + c / 64)) (String (byte_char (128 + c mod 64)) EmptyString)
  else if (c <? 65536)%Z then
    String (byte_char (224 + c / 4096))
      (String (byte_char (128 + (c / 64) mod 64))
        (String (byte_char (128 + c mod 64)) EmptyString))
  else
    String (byte_char (240 + c / 262144))
      (String (byte_char (128 + (c / 4096) mod 64))
        (String (byte_char (128 + (c / 64) mod 64))
          (String (byte_char (128 + c mod 64)) EmptyString))).

Fixpoint utf8_encode (l : list Z) : string :=
  match l with
  | [] => EmptyString
  | c :: t => (utf8_encode_cp c ++ utf8_encode t)%string
  end.

Definition valid_cp (c : Z) : Prop := (0 <= c <= 1114111)%Z.

(** Unicode letters (categories Lu, Ll, Lt, Lm, Lo: [str.isalpha]). *)
Definition letter_ranges : list (Z * Z) := [
  (65, 90); (97, 122); (170, 170); (181, 181); (186, 186); (192, 214);
  (216, 246); (248, 705); (710, 721); (736, 740); (748, 748); (750, 750);
  (880, 884); (886, 887); (890, 893); (895, 895); (902, 902); (904, 906);
  (908, 908); (910, 929); (931, 1013); (1015, 1153); (1162, 1327);
  (1329, 1366); (1369, 1369); (1376, 1416); (1488, 1514); (1519, 1522);
  (1568, 1610); (1646, 1647); (1649, 1747); (1749, 1749); (1765, 1766);
  (1774, 1775); (1786, 1788); (1791, 1791); (1808, 1808); (1810, 1839);
  (1869, 1957); (1969, 1969); (1994, 2026); (2036, 2037); (2042, 2042);
  (2048, 2069); (2074, 2074); (2084, 2084); (2088, 2088); (2112, 2136);
  (2144, 2154); (2160, 2183); (2185, 2190); (2208, 2249); (2308, 2361);
  (2365, 2365); (2384, 2384); (2392, 2401); (2417, 2432); (2437, 2444);
  (2447, 2448); (2451, 2472); (2474, 2480); (2482, 2482); (2486, 2489);
  (2493, 2493); (2510, 2510); (2524, 2525); (2527, 2529); (2544, 2545);
  (2556, 2556); (2565, 2570); (2575, 2576); (2579, 2600); (2602, 2608);
  (2610, 2611); (2613, 2614); (2616, 2617); (2649, 2652); (2654, 2654);
  (2674, 2676); (2693, 2701); (2703, 2705); (2707, 2728); (2730, 2736);
  (2738, 2739); (2741, 2745); (2749, 2749); (2768, 2768); (2784, 2785);
  (2809, 2809); (2821, 2828); (2831, 2832); (2835, 2856); (2858, 2864);
  (2866, 2867); (2869, 2873); (2877, 2877); (2908, 2909); (2911, 2913);
  (2929, 2929); (2947, 2947); (2949, 2954); (2958, 2960); (2962, 2965);
  (2969, 2970); (2972, 2972); (2974, 2975); (2979, 2980); (2984, 2986);
  (2990, 3001); (3024, 3024); (3077, 3084); (3086, 3088); (3090, 3112);
  (3114, 3129); (3133, 3133); (3160, 3162); (3165, 3165); (3168, 3169);
  (3200, 3200); (3205, 3212); (3214, 3216); (3218, 3240); (3242, 3251);
  (3253, 3257); (3261, 3261); (3293, 3294); (3296, 3297); (3313, 3314);
  (3332, 3340); (3342, 3344); (3346, 3386); (3389, 3389); (3406, 3406);
  (3412, 3414); (3423, 3425); (3450, 3455); (3461, 3478); (3482, 3505);
  (3507, 3515); (3517, 3517); (3520, 3526); (3585, 3632); (3634, 3635);
  (3648, 3654); (3713, 3714); (3716, 3716); (3718, 3722); (3724, 3747);
  (3749, 3749); (3751, 3760); (3762, 3763); (3773, 3773); (3776, 3780);
  (3782, 3782); (3804, 3807); (3840, 3840); (3904, 3911); (3913, 3948);
  (3976, 3980); (4096, 4138); (4159, 4159); (4176, 4181); (4186, 4189);
  (4193, 4193); (4197, 4198); (4206, 4208); (4213, 4225); (4238, 4238);
  (4256, 4293); (4295, 4295); (4301, 4301); (4304, 4346); (4348, 4680);
  (4682, 4685); (4688, 4694); (4696, 4696); (4698, 4701); (4704, 4744);
  (4746, 4749); (4752, 4784); (4786, 4789); (4792, 4798); (4800, 4800);
  (4802, 4805); (4808, 4822); (4824, 4880); (4882, 4885); (4888, 4954);
  (4992, 5007); (5024, 5109); (5112, 5117); (5121, 5740); (5743, 5759);
  (5761, 5786); (5792, 5866); (5873, 5880); (5888, 5905); (5919, 5937);
  (5952, 5969); (5984, 5996); (5998, 6000); (6016, 6067); (6103, 6103);
  (6108, 6108); (6176, 6264); (6272, 6276); (6279, 6312); (6314, 6314);
  (6320, 6389); (6400, 6430); (6480, 6509); (6512, 6516); (6528, 6571);
  (6576, 6601); (6656, 6678); (6688, 6740); (6823, 6823); (6917, 6963);
  (6981, 6988); (7043, 7072); (7086, 7087); (7098, 7141); (7168, 7203);
  (7245, 7247); (7258, 7293); (7296, 7304); (7312, 7354); (7357, 7359);
  (7401, 7404); (7406, 7411); (7413, 7414); (7418, 7418); (7424, 7615);
  (7680, 7957); (7960, 7965); (7968, 8005); (8008, 8013); (8016, 8023);
  (8025, 8025); (8027, 8027); (8029, 8029); (8031, 8061); (8064, 8116);
  (8118, 8124); (8126, 8126); (8130, 8132); (8134, 8140); (8144, 8147);
  (8150, 8155); (8160, 8172); (8178, 8180); (8182, 8188); (8305, 8305);
  (8319, 8319); (8336, 8348); (8450, 8450); (8455, 8455); (8458, 8467);
  (8469, 8469); (8473, 8477); (8484, 8484); (8486, 8486); (8488, 8488);
  (8490, 8493); (8495, 8505); (8508, 8511); (8517, 8521); (8526, 8526);
  (8579, 8580); (11264, 11492); (11499, 11502); (11506, 11507);
  (11520, 11557); (11559, 11559); (11565, 11565); (11568, 11623);
  (11631, 11631); (11648, 11670); (11680, 11686); (11688, 11694);
  (11696, 11702); (11704, 11710); (11712, 11718); (11720, 11726);
  (11728, 11734); (11736, 11742); (11823, 11823); (12293, 12294);
  (12337, 12341); (12347, 12348); (12353, 12438); (12445, 12447);
  (12449, 12538); (12540, 12543); (12549, 12591); (12593, 12686);
  (12704, 12735); (12784, 12799); (13312, 19903); (19968, 42124);
  (42192, 42237); (42240, 42508); (42512, 42527); (42538, 42539);
  (42560, 42606); (42623, 42653); (42656, 42725); (42775, 42783);
  (42786, 42888); (42891, 42954); (42960, 42961); (42963, 42963);
  (42965, 42969); (42994, 43009); (43011, 43013); (43015, 43018);
  (43020, 43042); (43072, 43123); (43138, 43187); (43250, 43255);
  (43259, 43259); (43261, 43262); (43274, 43301); (43312, 43334);
  (43360, 43388); (43396, 43442); (43471, 43471); (43488, 43492);
  (43494, 43503); (43514, 43518); (43520, 43560); (43584, 43586);
  (43588, 43595); (43616, 43638); (43642, 43642); (43646, 43695);
  (43697, 43697); (43701, 43702); (43705, 43709); (43712, 43712);
  (43714, 43714); (43739, 43741); (43744, 43754); (43762, 43764);
  (43777, 43782); (43785, 43790); (43793, 43798); (43808, 43814);
  (43816, 43822); (43824, 43866); (43868, 43881); (43888, 44002);
  (44032, 55203); (55216, 55238); (55243, 55291); (63744, 64109);
  (64112, 64217); (64256, 64262); (64275, 64279); (64285, 64285);
  (64287, 64296); (64298, 64310); (64312, 64316); (64318, 64318);
  (64320, 64321); (64323, 64324); (64326, 64433); (64467, 64829);
  (64848, 64911); (64914, 64967); (65008, 65019); (65136, 65140);
  (65142, 65276); (65313, 65338); (65345, 65370); (65382, 65470);
  (65474, 65479); (65482, 65487); (65490, 65495); (65498, 65500);
  (65536, 65547); (65549, 65574); (65576, 65594); (65596, 65597);
  (65599, 65613); (65616, 65629); (65664, 65786); (66176, 66204);
  (66208, 66256); (66304, 66335); (66349, 66368); (66370, 66377);
  (66384, 66421); (66432, 66461); (66464, 66499); (66504, 66511);
  (66560, 66717); (66736, 66771); (66776, 66811); (66816, 66855);
  (66864, 66915); (66928, 66938); (66940, 66954); (66956, 66962);
  (66964, 66965); (66967, 66977); (66979, 66993); (66995, 67001);
  (67003, 67004); (67072, 67382); (67392, 67413); (67424, 67431);
  (67456, 67461); (67463, 67504); (67506, 67514); (67584, 67589);
  (67592, 67592); (67594, 67637); (67639, 67640); (67644, 67644);
  (67647, 67669); (67680, 67702); (67712, 67742); (67808, 67826);
  (67828, 67829); (67840, 67861); (67872, 67897); (67968, 68023);
  (68030, 68031); (68096, 68096); (68112, 68115); (68117, 68119);
  (68121, 68149); (68192, 68220); (68224, 68252); (68288, 68295);
  (68297, 68324); (68352, 68405); (68416, 68437); (68448, 68466);
  (68480, 68497); (68608, 68680); (68736, 68786); (68800, 68850);
  (68864, 68899); (69248, 69289); (69296, 69297); (69376, 69404);
  (69415, 69415); (69424, 69445); (69488, 69505); (69552, 69572);
  (69600, 69622); (69635, 69687); (69745, 69746); (69749, 69749);
  (69763, 69807); (69840, 69864); (69891, 69926); (69956, 69956);
  (69959, 69959); (69968, 70002); (70006, 70006); (70019, 70066);
  (70081, 70084); (70106, 70106); (70108, 70108); (70144, 70161);
  (70163, 70187); (70272, 70278); (70280, 70280); (70282, 70285);
  (70287, 70301); (70303, 70312); (70320, 70366); (70405, 70412);
  (70415, 70416); (70419, 70440); (70442, 70448); (70450, 70451);
  (70453, 70457); (70461, 70461); (70480, 70480); (70493, 70497);
  (70656, 70708); (70727, 70730); (70751, 70753); (70784, 70831);
  (70852, 70853); (70855, 70855); (71040, 71086); (71128, 71131);
  (71168, 71215); (71236, 71236); (71296, 71338); (71352, 71352);
  (71424, 71450); (71488, 71494); (71680, 71723); (71840, 71903);
  (71935, 71942); (71945, 71945); (71948, 71955); (71957, 71958);
  (71960, 71983); (71999, 71999); (72001, 72001); (72096, 72103);
  (72106, 72144); (72161, 72161); (72163, 72163); (72192, 72192);
  (72203, 72242); (72250, 72250); (72272, 72272); (72284, 72329);
  (72349, 72349); (72368, 72440); (72704, 72712); (72714, 72750);
  (72768, 72768); (72818, 72847); (72960, 72966); (72968, 72969);
  (72971, 73008); (73030, 73030); (73056, 73061); (73063, 73064);
  (73066, 73097); (73112, 73112); (73440, 73458); (73648, 73648);
  (73728, 74649); (74880, 75075); (77712, 77808); (77824, 78894);
  (82944, 83526); (92160, 92728); (92736, 92766); (92784, 92862);
  (92880, 92909); (92928, 92975); (92992, 92995); (93027, 93047);
  (93053, 93071); (93760, 93823); (93952, 94026); (94032, 94032);
  (94099, 94111); (94176, 94177); (94179, 94179); (94208, 100343);
  (100352, 101589); (101632, 101640); (110576, 110579); (110581, 110587);
  (110589, 110590); (110592, 110882); (110928, 110930); (110948, 110951);
  (110960, 111355); (113664, 113770); (113776, 113788); (113792, 113800);
  (113808, 113817); (119808, 119892); (119894, 119964); (119966, 119967);
  (119970, 119970); (119973, 119974); (119977, 119980); (119982, 119993);
  (119995, 119995); (119997, 120003); (120005, 120069); (120071, 120074);
  (120077, 120084); (120086, 120092); (120094, 120121); (120123, 120126);
  (120128, 120132); (120134, 120134); (120138, 120144); (120146, 120485);
  (120488, 120512); (120514, 120538); (120540, 120570); (120572, 120596);
  (120598, 120628); (120630, 120654); (120656, 120686); (120688, 120712);
  (120714, 120744); (120746, 120770); (120772, 120779); (122624, 122654);
  (123136, 123180); (123191, 123197); (123214, 123214); (123536, 123565);
  (123584, 123627); (124896, 124902); (124904, 124907); (124909, 124910);
  (124912, 124926); (124928, 125124); (125184, 125251); (125259, 125259);
  (126464, 126467); (126469, 126495); (126497, 126498); (126500, 126500);
  (126503, 126503); (126505, 126514); (126516, 126519); (126521, 126521);
  (126523, 126523); (126530, 126530); (126535, 126535); (126537, 126537);
  (126539, 126539); (126541, 126543); (126545, 126546); (126548, 126548);
  (126551, 126551); (126553, 126553); (126555, 126555); (126557, 126557);
  (126559, 126559); (126561, 126562); (126564, 126564); (126567, 126570);
  (126572, 126578); (126580, 126583); (126585, 126588); (126590, 126590);
  (126592, 126601); (126603, 126619); (126625, 126627); (126629, 126633);
  (126635, 126651); (131072, 173791); (173824, 177976); (177984, 178205);
  (178208, 183969); (183984, 191456); (194560, 195101); (196608, 201546)
]%Z.

(** Unicode decimal digits (category Nd: [str.isdecimal]). *)
Definition decimal_ranges : list (Z * Z) := [
  (48, 57); (1632, 1641); (1776, 1785); (1984, 1993); (2406, 2415);
  (2534, 2543); (2662, 2671); (2790, 2799); (2918, 2927); (3046, 3055);
  (3174, 3183); (3302, 3311); (3430, 3439); (3558, 3567); (3664, 3673);
  (3792, 3801); (3872, 3881); (4160, 4169); (4240, 4249); (6112, 6121);
  (6160, 6169); (6470, 6479); (6608, 6617); (6784, 6793); (6800, 6809);
  (6992, 7001); (7088, 7097); (7232, 7241); (7248, 7257); (42528, 42537);
  (43216, 43225); (43264, 43273); (43472, 43481); (43504, 43513);
  (43600, 43609); (44016, 44025); (65296, 65305); (66720, 66729);
  (68912, 68921); (69734, 69743); (69872, 69881); (69942, 69951);
  (70096, 70105); (70384, 70393); (70736, 70745); (70864, 70873);
  (71248, 71257); (71360, 71369); (71472, 71481); (71904, 71913);
  (72016, 72025); (72784, 72793); (73040, 73049); (73120, 73129);
  (92768, 92777); (92864, 92873); (93008, 93017); (120782, 120831);
  (123200, 123209); (123632, 123641); (125264, 125273); (130032, 130041)
]%Z.

(** Go identifiers: a letter (Unicode categories Lu, Ll, Lt, Lm, Lo) or
    underscore, then letters, underscores or decimal digits (Nd). *)
Definition go_letter (c : Z) : bool := in_ranges letter_ranges c || (c =? 95)%Z.

Definition go_digit (c : Z) : bool := in_ranges decimal_ranges c.

Definition is_identifier (l : list Z) : bool :=
  match l with
  | [] => false
  | c :: r => go_letter c && forallb (fun d => go_letter d || go_digit d) r
  end.

(** A non-empty run of whitespace characters. *)
Definition is_whitespace_run (l : list Z) : bool :=
  match l with
  | [] => false
  | _ => forallb py_isspace l
  end.

Definition ranges_disjoint (t1 t2 : list (Z * Z)) : bool :=
  forallb (fun r1 => forallb (fun r2 =>
    (snd r1 <? fst r2)%Z || (snd r2 <? fst r1)%Z) t2) t1.

Definition ranges_sub (t1 t2 : list (Z * Z)) : bool :=
  forallb (fun r1 => existsb (fun r2 =>
    (fst r2 <=? fst r1)%Z && (snd r1 <=? snd r2)%Z) t2) t1.

Definition ranges_valid (t : list (Z * Z)) : bool :=
  forallb (fun r => (0 <=? fst r)%Z && (snd r <=? 1114111)%Z) t.

(** [pre] is empty or ends with a newline: what follows it starts a line. *)
Definition starts_line (pre : string) : Prop :=
  pre = EmptyString \/ exists pre', pre = (pre' ++ nl)%string.

(** A brace-mismatch issue, as emitted by [check_go_syntax]. *)
Definition is_brace_issue (s : string) : bool :=
  String.prefix "Unmatched braces:" s.

(** The three checks of [check_go_syntax], each on its own. *)
Definition brace_check (content : string) : option string :=
  let o := count_char "{" content in
  let c := count_char "}" content in
  if Nat.eqb o c then None else Some (braces_msg o c).

Definition paren_check (content : string) : option string :=
  let o := count_char "(" content in
  let c := count_char ")" content in
  if Nat.eqb o c then None else Some (parens_msg o c).

Definition package_check (content : string) : option string :=
  if package_re_search content then None else Some missing_package_msg.

Definition option_list {A} (o : option A) : list A :=
  match o with Some a => [a] | None => [] end.

(** Issues of the failing checks, in the order brace, parenthesis,
    package. *)
Definition independent_issues (content : string) : list string :=
  option_list (brace_check content) ++ option_list (paren_check content) ++
  option_list (package_check content).

(** [os.stat] succeeds on the path. *)
Definition stat_ok (st : fs) (p : string) : bool :=
  match os_stat st p with inr _ => true | inl _ => false end.

(** [p] reaches [q] by following zero or more symbolic links. *)
Inductive links_to (st : fs) : string -> string -> Prop :=
| links_refl p : links_to st p p
| links_step p t q :
    st p = Some (Symlink t) -> links_to st t q -> links_to st p q.

(** Following the links from [p] ends at a path with no entry. *)
Definition dangling (st : fs) (p : string) : Prop :=
  exists q, links_to st p q /\ st q = None.

(** Following the links from [p] never ends: every path reached is again
    a symbolic link (a cycle of links). *)
Definition looping (st : fs) (p : string) : Prop :=
  forall q, links_to st p q -> exists t, st q = Some (Symlink t).

(** A filesystem with a dangling symbolic link at [main_go_path]. *)
Definition dangling_main_fs : fs :=
  fun p => if String.eqb p main_go_path then Some (Symlink "/nonexistent")
           else None.

(** ** Generic lemmas *)

Lemma bind_inr {A B} (o : list string) (a : A) (f : A -> M B) :
  bind (o, inr a) f = (o ++ fst (f a), snd (f a)).
Proof. unfold bind. destruct (f a); reflexivity. Qed.

Lemma bind_inl {A B} (o : list string) (e : exn) (f : A -> M B) :
  bind (o, inl e) f = (o, inl e).
Proof. reflexivity. Qed.

Lemma bind_assoc {A B C} (m : M A) (f : A -> M B) (g : B -> M C) :
  bind (bind m f) g = bind m (fun x => bind (f x) g).
Proof.
  destruct m as [o [e|a]]; [reflexivity|].
  rewrite !bind_inr. destruct (f a) as [o1 [e1|b]].
  - simpl. reflexivity.
  - rewrite bind_inr. simpl. destruct (g b).
    simpl. rewrite app_assoc. reflexivity.
Qed.

Lemma resolve_os_error fuel st p :
  match resolve fuel st p with
  | inl (OSError _) | inr _ => True
  | inl _ => False
  end.
Proof.
  revert p; induction fuel as [|f IH]; intros p; simpl; [exact I|].
  destruct (st p) as [[]|]; simpl; auto; apply IH.
Qed.

Lemma check_file_exists_eq st p :
  check_file_exists st p = ([], inr (stat_ok st p)).
Proof.
  unfold check_file_exists, os_path_exists, stat_ok, os_stat.
  destruct (has_nul p); [reflexivity|].
  pose proof (resolve_os_error 40 st p) as H.
  destruct (resolve 40 st p) as [[]|]; try contradiction; reflexivity.
Qed.

Lemma resolve_dangling fuel st p q :
  links_to st p q -> st q = None -> exists e, resolve fuel st p = inl e.
Proof.
  intros Hl Hq. revert fuel.
  induction Hl as [p|p t q Hp Hl IH]; intros [|f]; simpl; eauto.
  - rewrite Hq. eauto.
  - rewrite Hp. apply IH, Hq.
Qed.

Lemma resolve_looping fuel st p :
  looping st p -> exists e, resolve fuel st p = inl e.
Proof.
  revert p; induction fuel as [|f IH]; intros p Hl; simpl; [eauto|].
  destruct (Hl p (links_refl st p)) as [t Ht]. rewrite Ht. apply IH.
  intros q Hq. apply Hl. eapply links_step; eauto.
Qed.

Lemma append_assoc_str (a b c : string) :
  (a ++ (b ++ c) = (a ++ b) ++ c)%string.
Proof. induction a; simpl; congruence. Qed.

Lemma in_ranges_spec t c :
  in_ranges t c = true <-> exists r, In r t /\ (fst r <= c <= snd r)%Z.
Proof.
  unfold in_ranges. rewrite existsb_exists. split.
  - intros [r [Hr Hc]]. apply andb_true_iff in Hc as [H1 H2].
    apply Z.leb_le in H1, H2. eauto.
  - intros [r [Hr [H1 H2]]]. exists r. split; [exact Hr|].
    apply andb_true_iff. split; apply Z.leb_le; assumption.
Qed.

Lemma in_ranges_disjoint t1 t2 c :
  ranges_disjoint t1 t2 = true -> in_ranges t1 c = true -> in_ranges t2 c = false.
Proof.
  intros Hd H1. destruct (in_ranges t2 c) eqn:H2; [|reflexivity].
  apply in_ranges_spec in H1 as [r1 [Hr1 Hc1]].
  apply in_ranges_spec in H2 as [r2 [Hr2 Hc2]].
  unfold ranges_disjoint in Hd. rewrite forallb_forall in Hd.
  specialize (Hd r1 Hr1). rewrite forallb_forall in Hd.
  specialize (Hd r2 Hr2). apply orb_true_iff in Hd as [Hd|Hd];
  apply Z.ltb_lt in Hd; lia.
Qed.

Lemma in_ranges_sub t1 t2 c :
  ranges_sub t1 t2 = true -> in_ranges t1 c = true -> in_ranges t2 c = true.
Proof.
  intros Hs H1. apply in_ranges_spec in H1 as [r1 [Hr1 Hc1]].
  unfold ranges_sub in Hs. rewrite forallb_forall in Hs.
  specialize (Hs r1 Hr1). apply existsb_exists in Hs as [r2 [Hr2 H]].
  apply andb_true_iff in H as [Ha Hb]. apply Z.leb_le in Ha, Hb.
  apply in_ranges_spec. exists r2. split; [exact Hr2|lia].
Qed.

Lemma in_ranges_valid t c :
  ranges_valid t = true -> in_ranges t c = true -> valid_cp c.
Proof.
  intros Hv H. apply in_ranges_spec in H as [r [Hr Hc]].
  unfold ranges_valid in Hv. rewrite forallb_forall in Hv.
  specialize (Hv r Hr). apply andb_true_iff in Hv as [Ha Hb].
  apply Z.leb_le in Ha, Hb. unfold valid_cp. lia.
Qed.

Lemma space_not_word c : py_isspace c = true -> py_isword c = false.
Proof.
  apply in_ranges_disjoint. vm_compute. reflexivity.
Qed.

Lemma letter_word c : go_letter c = true -> py_isword c = true.
Proof.
  unfold go_letter. intros H. apply orb_true_iff in H as [H|H].
  - revert H. apply in_ranges_sub. vm_compute. reflexivity.
  - apply Z.eqb_eq in H. subst c. vm_compute. reflexivity.
Qed.

Lemma space_valid c : py_isspace c = true -> valid_cp c.
Proof. apply in_ranges_valid. vm_compute. reflexivity. Qed.

Lemma letter_valid c : go_letter c = true -> valid_cp c.
Proof.
  unfold go_letter. intros H. apply orb_true_iff in H as [H|H].
  - revert H. apply in_ranges_valid. vm_compute. reflexivity.
  - apply Z.eqb_eq in H. subst c. unfold valid_cp. lia.
Qed.

Lemma digit_valid c : go_digit c = true -> valid_cp c.
Proof. apply in_ranges_valid. vm_compute. reflexivity. Qed.

Lemma bad_not_word : py_isword bad_cp = false.
Proof. vm_compute. reflexivity. Qed.

Lemma bad_not_space : py_isspace bad_cp = false.
Proof. vm_compute. reflexivity. Qed.

Lemma byte_value_char n : (0 <= n < 256)%Z -> byte_value (byte_char n) = n.
Proof.
  intros Hn. unfold byte_value, byte_char. rewrite nat_ascii_embedding by lia.
  apply Z2Nat.id. lia.
Qed.

Ltac zcases :=
  repeat match goal with
  | |- context [Z.ltb ?a ?b] => destruct (Z.ltb_spec a b); try lia
  | |- context [Z.leb ?a ?b] => destruct (Z.leb_spec a b); try lia
  end.

Lemma utf8_dec_encode_cp c t :
  valid_cp c ->
  utf8_dec O 0 (utf8_encode_cp c ++ t) = c :: utf8_dec O 0 t.
Proof.
  unfold valid_cp. intros Hc.
  assert (E1 : (c = 64 * (c / 64) + c mod 64)%Z) by (apply Z.div_mod; lia).
  assert (B1 : (0 <= c mod 64 < 64)%Z) by (apply Z.mod_pos_bound; lia).
  assert (E2 : (c / 64 = 64 * (c / 4096) + (c / 64) mod 64)%Z).
  { replace (c / 4096)%Z with (c / 64 / 64)%Z
      by (rewrite Z.div_div by lia; reflexivity).
    apply Z.div_mod; lia. }
  assert (B2 : (0 <= (c / 64) mod 64 < 64)%Z) by (apply Z.mod_pos_bound; lia).
  assert (E3 : (c / 4096 = 64 * (c / 262144) + (c / 4096) mod 64)%Z).
  { replace (c / 262144)%Z with (c / 4096 / 64)%Z
      by (rewrite Z.div_div by lia; reflexivity).
    apply Z.div_mod; lia. }
  assert (B3 : (0 <= (c / 4096) mod 64 < 64)%Z) by (apply Z.mod_pos_bound; lia).
  assert (P : (0 <= c / 262144)%Z) by (apply Z.div_pos; lia).
  unfold utf8_encode_cp. zcases;
  cbn [String.append utf8_dec]; unfold utf8_step, utf8_lead;
  rewrite ?byte_value_char by lia; zcases; cbn [List.app andb]; f_equal; lia.
Qed.

Lemma utf8_encode_app l1 l2 :
  utf8_encode (l1 ++ l2) = (utf8_encode l1 ++ utf8_encode l2)%string.
Proof.
  induction l1 as [|c l IH]; simpl; [reflexivity|].
  rewrite IH. apply append_assoc_str.
Qed.

Lemma utf8_decode_encode l t :
  Forall valid_cp l ->
  utf8_decode (utf8_encode l ++ t) = l ++ utf8_decode t.
Proof.
  unfold utf8_decode. induction 1 as [|c l Hc Hl IH]; [reflexivity|].
  cbn [utf8_encode]. rewrite <- append_assoc_str, utf8_dec_encode_cp by exact Hc.
  rewrite IH. reflexivity.
Qed.

(** Decoding a longer text extends the code points decoded so far, up to
    a sequence cut short at the end. *)
Lemma utf8_dec_app need acc r t :
  exists pre,
    (utf8_dec need acc r = pre \/ utf8_dec need acc r = pre ++ [bad_cp]) /\
    exists suf, utf8_dec need acc (r ++ t) = pre ++ suf.
Proof.
  revert need acc; induction r as [|b r IH]; intros need acc.
  - exists []. split; [destruct need; [left|right]; reflexivity|].
    eexists. reflexivity.
  - cbn [utf8_dec String.append]. destruct (utf8_step need acc b) as [[o k] a].
    destruct (IH k a) as [pre [Hd [suf Hs]]].
    exists (o ++ pre). split.
    + destruct Hd as [Hd|Hd]; rewrite Hd; [left|right];
        [reflexivity|apply app_assoc].
    + exists suf. rewrite Hs. apply app_assoc.
Qed.

Lemma spaces_then_word_mono t u :
  spaces_then_word t = true -> spaces_then_word (t ++ u) = true.
Proof.
  induction t as [|c t IH]; simpl; [discriminate|].
  destruct (py_isword c); [auto|]. destruct (py_isspace c); auto.
Qed.

Lemma spaces_then_word_bad t :
  spaces_then_word (t ++ [bad_cp]) = true -> spaces_then_word t = true.
Proof.
  induction t as [|c t IH]; cbn [List.app spaces_then_word].
  - rewrite bad_not_word, bad_not_space. discriminate.
  - destruct (py_isword c); [auto|]. destruct (py_isspace c); auto.
Qed.

Lemma spaces_then_word_inv t :
  spaces_then_word t = true ->
  exists w x rest, t = w ++ x :: rest /\
    forallb py_isspace w = true /\ py_isword x = true.
Proof.
  induction t as [|c t IH]; simpl; [discriminate|]. intros H.
  destruct (py_isword c) eqn:Hw.
  - exists [], c, t. auto.
  - destruct (py_isspace c) eqn:Hs; [|discriminate].
    destruct (IH H) as [w [x [rest [-> [Hws Hx]]]]].
    exists (c :: w), x, rest. simpl. rewrite Hs. auto.
Qed.

Lemma spaces_then_word_word w x rest :
  forallb py_isspace w = true -> py_isword x = true ->
  spaces_then_word (w ++ x :: rest) = true.
Proof.
  induction w as [|c w IH]; simpl; intros Hw Hx; [rewrite Hx; reflexivity|].
  apply andb_true_iff in Hw as [Hc Hw].
  rewrite (space_not_word _ Hc), Hc. auto.
Qed.

Lemma substring_all s : substring 0 (String.length s) s = s.
Proof. induction s; simpl; [reflexivity|]. rewrite IHs. reflexivity. Qed.

Lemma prefix_nil r : String.prefix "" r = true.
Proof. destruct r; reflexivity. Qed.

Lemma match_here_unfold r :
  match_here ("package" ++ r) =
  match utf8_decode r with
  | c :: t => py_isspace c && spaces_then_word t
  | [] => false
  end.
Proof.
  unfold match_here. cbn [String.prefix String.append].
  cbn - [String.append utf8_decode]. rewrite Nat.sub_0_r, substring_all, prefix_nil.
  reflexivity.
Qed.

Lemma forallb_space_valid w : forallb py_isspace w = true -> Forall valid_cp w.
Proof.
  intros H. apply Forall_forall. intros c Hc.
  rewrite forallb_forall in H. apply space_valid, H, Hc.
Qed.

Lemma identifier_valid id : is_identifier id = true -> Forall valid_cp id.
Proof.
  destruct id as [|c r]; simpl; [discriminate|]. intros H.
  apply andb_true_iff in H as [Hc Hr]. constructor; [apply letter_valid, Hc|].
  apply Forall_forall. intros d Hd. rewrite forallb_forall in Hr.
  specialize (Hr d Hd). apply orb_true_iff in Hr as [H|H];
    [apply letter_valid|apply digit_valid]; exact H.
Qed.

Lemma match_here_package ws id post :
  is_whitespace_run ws = true -> is_identifier id = true ->
  match_here ("package" ++ utf8_encode ws ++ utf8_encode id ++ post) = true.
Proof.
  intros Hws Hid. rewrite match_here_unfold.
  assert (Hw : forallb py_isspace ws = true)
    by (destruct ws; [discriminate|exact Hws]).
  rewrite (utf8_decode_encode ws _ (forallb_space_valid _ Hw)).
  rewrite (utf8_decode_encode id _ (identifier_valid _ Hid)).
  destruct ws as [|c t]; [discriminate|].
  simpl in Hw. apply andb_true_iff in Hw as [Hc Ht]. cbn [List.app].
  rewrite Hc. simpl.
  destruct id as [|d r]; [discriminate|]. simpl in Hid.
  apply andb_true_iff in Hid as [Hd _].
  apply spaces_then_word_word; [exact Ht|apply letter_word, Hd].
Qed.

Fixpoint bol_after (b : bool) (pre : string) : bool :=
  match pre with
  | EmptyString => b
  | String c t => bol_after (Ascii.eqb c (ascii_of_nat 10)) t
  end.

Lemma search_ml_app b pre s :
  search_ml (bol_after b pre) s = true -> search_ml b (pre ++ s) = true.
Proof.
  revert b; induction pre as [|c t IH]; intros b H; simpl in *; [exact H|].
  rewrite (IH _ H). apply orb_true_r.
Qed.

Lemma bol_after_nl b pre : bol_after b (pre ++ nl) = true.
Proof. revert b; induction pre; intros b; simpl; auto. Qed.

Lemma search_ml_here s : match_here s = true -> search_ml true s = true.
Proof.
  intros H. destruct s as [|c t]; cbn [search_ml andb orb]; rewrite H;
  reflexivity.
Qed.

Lemma package_re_search_line pre ws id post :
  starts_line pre -> is_whitespace_run ws = true -> is_identifier id = true ->
  package_re_search (pre ++ "package" ++ utf8_encode ws ++ utf8_encode id ++ post)
  = true.
Proof.
  intros Hpre Hws Hid. unfold package_re_search. apply search_ml_app.
  assert (Hb : bol_after true pre = true).
  { destruct Hpre as [-> | [pre' ->]]; [reflexivity|apply bol_after_nl]. }
  rewrite Hb. apply search_ml_here, match_here_package; assumption.
Qed.

Lemma prefix_app_inv (p s : string) :
  String.prefix p s = true -> exists r, s = (p ++ r)%string.
Proof.
  revert s; induction p as [|a p IH]; intros s H.
  - exists s. reflexivity.
  - destruct s as [|b s]; simpl in H; [discriminate|].
    destruct (ascii_dec a b) as [->|_]; [|discriminate].
    destruct (IH s H) as [r ->]. exists r. reflexivity.
Qed.

Lemma match_here_app s t : match_here s = true -> match_here (s ++ t) = true.
Proof.
  intros H. pose proof H as H'. unfold match_here in H'.
  apply andb_true_iff in H' as [Hp _].
  destruct (prefix_app_inv _ _ Hp) as [r ->].
  rewrite match_here_unfold in H. rewrite <- append_assoc_str, match_here_unfold.
  unfold utf8_decode in *.
  destruct (utf8_dec_app O 0%Z r t) as [pre [Hd [suf Hs]]]. rewrite Hs.
  assert (Hpre : match pre with
                 | c :: u => py_isspace c && spaces_then_word u
                 | [] => false
                 end = true).
  { destruct Hd as [Hd|Hd]; rewrite Hd in H; [exact H|].
    destruct pre as [|c u]; cbn [List.app] in H.
    - rewrite bad_not_space in H. discriminate.
    - apply andb_true_iff in H as [Hc Hu]. rewrite Hc.
      apply spaces_then_word_bad, Hu. }
  destruct pre as [|c u]; [discriminate|]. simpl.
  apply andb_true_iff in Hpre as [Hc Hu]. rewrite Hc.
  apply spaces_then_word_mono, Hu.
Qed.

(** ** Properties of [check_go_syntax] *)

(** C2: equal brace counts, equal parenthesis counts and a line starting
    with [package], whitespace and an identifier give no issue. The
    whitespace [ws] and the identifier [id] are sequences of code points,
    Unicode ones included (so [package éclair] is covered); the text holds
    their UTF-8 encoding. *)
Theorem check_go_syntax_no_issues content pre ws id post :
  count_char "{" content = count_char "}" content ->
  count_char "(" content = count_char ")" content ->
  content = (pre ++ "package" ++ utf8_encode ws ++ utf8_encode id ++ post)%string ->
  starts_line pre -> is_whitespace_run ws = true -> is_identifier id = true ->
  go_syntax_issues content = [] /\
  (forall st p, read_text st p = ([], inr content) ->
                check_go_syntax st p = ([], inr [])).
Proof.
  intros Hb Hp Hc Hpre Hws Hid.
  assert (Hissues : go_syntax_issues content = []).
  { unfold go_syntax_issues. rewrite Hb, Hp, !Nat.eqb_refl.
    rewrite Hc, (package_re_search_line pre ws id post Hpre Hws Hid).
    reflexivity. }
  split; [exact Hissues|].
  intros st p Hr. unfold check_go_syntax. rewrite Hr, bind_inr, Hissues.
  reflexivity.
Qed.

(** C3: with different brace counts, exactly one issue is a brace
    mismatch, and it carries the true counts of [{] and [}]. *)
Theorem check_go_syntax_brace_issue content :
  count_char "{" content <> count_char "}" content ->
  filter is_brace_issue (go_syntax_issues content) =
  [braces_msg (count_char "{" content) (count_char "}" content)].
Proof.
  intros Hne. unfold go_syntax_issues.
  apply Nat.eqb_neq in Hne. rewrite Hne.
  destruct (Nat.eqb (count_char "(" content) (count_char ")" content));
  destruct (package_re_search content); reflexivity.
Qed.

(** C4: the issues of ["func f() {"] are the brace mismatch 1/0 and the
    missing package, in that order, also when read from a file. *)
Theorem check_go_syntax_func_open_brace :
  go_syntax_issues "func f() {" =
    ["Unmatched braces: 1 open, 0 close"; "Missing package declaration"] /\
  check_go_syntax (fun p => if String.eqb p "a.go"
                            then Some (Reg true (Some "func f() {")) else None)
                  "a.go" =
    ([], inr ["Unmatched braces: 1 open, 0 close";
              "Missing package declaration"]).
Proof. split; vm_compute; reflexivity. Qed.

(** C5: the three checks are evaluated independently; the result lists the
    issue of each failing check, one per check, in the order brace,
    parenthesis, package. *)
Theorem check_go_syntax_independent content :
  go_syntax_issues content = independent_issues content /\
  (forall st p, read_text st p = ([], inr content) ->
                check_go_syntax st p = ([], inr (independent_issues content))).
Proof.
  assert (H : go_syntax_issues content = independent_issues content).
  { unfold go_syntax_issues, independent_issues, brace_check, paren_check,
      package_check.
    destruct (Nat.eqb (count_char "{" content) (count_char "}" content));
    destruct (Nat.eqb (count_char "(" content) (count_char ")" content));
    destruct (package_re_search content); reflexivity. }
  split; [exact H|].
  intros st p Hr. unfold check_go_syntax. rewrite Hr, bind_inr, H.
  reflexivity.
Qed.

(** ** [check_file_exists] *)

(** C6 (as amended): [check_file_exists] never raises and prints nothing;
    it returns true exactly when [os.stat] succeeds on the path, following
    symbolic links. So an absent path gives false, and so does a path
    whose links end at a missing entry (dangling) or never end (looping);
    an entry that is not a link gives true. *)
Theorem check_file_exists_total st p :
  check_file_exists st p = ([], inr (stat_ok st p)) /\
  (st p = None -> check_file_exists st p = ([], inr false)) /\
  (dangling st p \/ looping st p -> check_file_exists st p = ([], inr false)) /\
  (forall n, has_nul p = false -> st p = Some n -> (forall t, n <> Symlink t) ->
   check_file_exists st p = ([], inr true)).
Proof.
  split; [apply check_file_exists_eq|].
  rewrite check_file_exists_eq. unfold stat_ok, os_stat.
  split; [|split].
  - intros Hnone. destruct (has_nul p); [reflexivity|]. simpl.
    rewrite Hnone. reflexivity.
  - intros H. destruct (has_nul p); [reflexivity|].
    destruct H as [[q [Hl Hq]]|Hl];
      [destruct (resolve_dangling 40 st p q Hl Hq) as [e He]
      |destruct (resolve_looping 40 st p Hl) as [e He]];
      rewrite He; reflexivity.
  - intros n Hn Hp Hl. rewrite Hn. simpl. rewrite Hp.
    destruct n as [b o| |t]; [reflexivity|reflexivity|].
    exfalso. exact (Hl t eq_refl).
Qed.

(** C6 fails as stated: a dangling symbolic link is an entry of the
    filesystem, yet [check_file_exists] returns false for it. *)
Lemma check_file_exists_dangling_symlink :
  dangling_main_fs main_go_path <> None /\
  check_file_exists dangling_main_fs main_go_path = ([], inr false).
Proof. split; [vm_compute; discriminate | vm_compute; reflexivity]. Qed.

(** ** The greeter *)

(** C9: a GET of [/] answers 200 with body ["Hello World!"], whatever the
    query parameters and headers. *)
Theorem hello_world_constant q h :
  app {| req_method := "GET"; req_path := "/"; req_query := q;
         req_headers := h |} = {| status := 200; body := "Hello World!" |} /\
  200 <= status (app {| req_method := "GET"; req_path := "/"; req_query := q;
                        req_headers := h |}) < 300.
Proof. split; [reflexivity | simpl; lia]. Qed.

(** ** The per-file loop and the [main.go] check *)

Definition starts_space (l : string) : bool :=
  match l with String c _ => Ascii.eqb c " " | EmptyString => false end.

(** Lines printed after [exists_line] for a [.go] file with [issues]. *)
Definition issue_block (issues : list string) : list string :=
  match issues with
  | [] => ["  ✓ Basic syntax validation passed"]
  | _ :: _ => "  ⚠ Syntax issues found:" :: map issue_line issues
  end.

Lemma print_issues_eq l : print_issues l = (map issue_line l, inr tt).
Proof.
  induction l as [|i r IH]; [reflexivity|].
  cbn [print_issues print_lines]. unfold print. rewrite bind_inr, IH.
  reflexivity.
Qed.

Lemma print_lines_eq l : print_lines l = (l, inr tt).
Proof.
  induction l as [|i r IH]; [reflexivity|].
  cbn [print_issues print_lines]. unfold print. rewrite bind_inr, IH.
  reflexivity.
Qed.

Lemma read_text_silent st p : exists r, read_text st p = ([], r).
Proof.
  unfold read_text.
  destruct (os_stat st p) as [e|[[] [c|] | |]]; eexists; reflexivity.
Qed.

Lemma issue_block_space issues :
  Forall (fun l => starts_space l = true) (issue_block issues).
Proof.
  destruct issues as [|i r].
  - constructor; [reflexivity | constructor].
  - simpl. constructor; [reflexivity|].
    change (issue_line i :: map issue_line r) with (map issue_line (i :: r)).
    generalize (i :: r). intros l. induction l as [|j t IH]; simpl.
    + constructor.
    + constructor; [reflexivity | exact IH].
Qed.

Lemma check_one_cases st q :
  (stat_ok st q = false /\ check_one st q = ([missing_line q], inr tt)) \/
  (stat_ok st q = true /\ endswith ".go" q = false /\
   check_one st q = ([exists_line q], inr tt)) \/
  (stat_ok st q = true /\ endswith ".go" q = true /\
   exists e, read_text st q = ([], inl e) /\
             check_one st q = ([exists_line q], inl e)) \/
  (stat_ok st q = true /\ endswith ".go" q = true /\
   exists c, read_text st q = ([], inr c) /\
   check_one st q = (exists_line q :: issue_block (go_syntax_issues c), inr tt)).
Proof.
  remember (check_one st q) as r eqn:Hr.
  unfold check_one in Hr. rewrite check_file_exists_eq, bind_inr in Hr.
  simpl in Hr. destruct (stat_ok st q) eqn:Hs; simpl in Hr.
  - destruct (endswith ".go" q) eqn:He; simpl in Hr.
    + unfold check_go_syntax in Hr.
      destruct (read_text_silent st q) as [[e|c] Hrd]; rewrite Hrd in Hr.
      * right; right; left. repeat split. exists e. split; [exact Hrd|].
        rewrite Hr. reflexivity.
      * right; right; right. repeat split. exists c. split; [exact Hrd|].
        rewrite Hr, !bind_inr. simpl.
        destruct (go_syntax_issues c) as [|i l]; simpl.
        -- reflexivity.
        -- rewrite print_issues_eq. reflexivity.
    + right; left. repeat split. rewrite Hr. reflexivity.
  - left. split; [reflexivity|]. rewrite Hr. reflexivity.
Qed.

Definition main_lines (main_content : string) : list string :=
  [ if contains "github.com/okteto/okteto/cmd/snapshot" main_content
    then import_ok_line else import_missing_line;
    if contains "snapshot.Snapshot(" main_content
    then command_ok_line else command_missing_line ].

Lemma check_main_go_cases st :
  (stat_ok st main_go_path = false /\ check_main_go st = ([], inr tt)) \/
  (stat_ok st main_go_path = true /\
   exists e, read_text st main_go_path = ([], inl e) /\
             check_main_go st = ([], inl e)) \/
  (stat_ok st main_go_path = true /\
   exists c, read_text st main_go_path = ([], inr c) /\
             check_main_go st = (main_lines c, inr tt)).
Proof.
  remember (check_main_go st) as r eqn:Hr.
  unfold check_main_go in Hr. rewrite check_file_exists_eq, bind_inr in Hr.
  simpl in Hr. destruct (stat_ok st main_go_path) eqn:Hs; simpl in Hr.
  - destruct (read_text_silent st main_go_path) as [[e|c] Hrd];
      rewrite Hrd in Hr.
    + right; left. split; [reflexivity|]. exists e. split; [exact Hrd|].
      rewrite Hr. reflexivity.
    + right; right. split; [reflexivity|]. exists c. split; [exact Hrd|].
      rewrite Hr, bind_inr. simpl. unfold main_lines.
      destruct (contains "github.com/okteto/okteto/cmd/snapshot" c);
      destruct (contains "snapshot.Snapshot(" c); reflexivity.
  - left. split; [reflexivity|]. rewrite Hr. reflexivity.
Qed.

(** Output of one loop iteration that ran to its end: the missing warning
    for an absent path, otherwise the confirmation followed by indented
    lines. *)
Definition block_shape (q : string) (b : bool) (o : list string) : Prop :=
  if b then exists rest, o = exists_line q :: rest /\
                         Forall (fun l => starts_space l = true) rest
  else o = [missing_line q].

(** Output of the [main.go] check that ran to its end. *)
Definition main_shape (b : bool) (o : list string) : Prop :=
  if b then exists a c, o = [a; c] /\
              (a = import_ok_line \/ a = import_missing_line) /\
              (c = command_ok_line \/ c = command_missing_line)
  else o = [].

(** The expected [.go] file [q], if present, can be read. *)
Definition file_ready (st : fs) (q : string) : Prop :=
  stat_ok st q = true -> endswith ".go" q = true ->
  exists c, read_text st q = ([], inr c).

(** Every checked path that exists can be read. *)
Definition checked_files_readable (st : fs) : Prop :=
  forall p, In p (files_to_check ++ [main_go_path]) -> stat_ok st p = true ->
  exists c, read_text st p = ([], inr c).

Definition header_lines : list string :=
  [ "Validating Okteto Snapshot Command Implementation...";
    repeat_str "=" 50 ].

Lemma bind_ok_inv {A B} (m : M A) (f : A -> M B) o b :
  bind m f = (o, inr b) ->
  exists o1 a o2, m = (o1, inr a) /\ f a = (o2, inr b) /\ o = o1 ++ o2.
Proof.
  destruct m as [o1 [e|a]]; simpl; [discriminate|].
  destruct (f a) as [o2 r] eqn:Hf. intros H. injection H as <- ->.
  exists o1, a, o2. auto.
Qed.

Lemma check_one_ready st q :
  file_ready st q ->
  exists o, check_one st q = (o, inr tt) /\ block_shape q (stat_ok st q) o.
Proof.
  intros Hready. unfold block_shape.
  destruct (check_one_cases st q) as
      [[Hs Hc]|[[Hs [He Hc]]|[[Hs [He [e [Hr Hc]]]]|[Hs [He [c [Hr Hc]]]]]]];
    rewrite Hs.
  - eexists; split; [exact Hc|reflexivity].
  - eexists; split; [exact Hc|]. exists []. split; [reflexivity|constructor].
  - destruct (Hready Hs He) as [c Hr']. congruence.
  - eexists; split; [exact Hc|]. eexists; split; [reflexivity|].
    apply issue_block_space.
Qed.

Lemma check_all_ready st l :
  Forall (file_ready st) l ->
  exists os, check_all st l = (concat os, inr tt) /\
             Forall2 (fun q o => block_shape q (stat_ok st q) o) l os.
Proof.
  induction l as [|q l IH]; intros Hl.
  - exists []. split; [reflexivity|constructor].
  - inversion Hl as [|? ? Hq Hl']; subst.
    destruct (check_one_ready st q Hq) as [o [Ho Hshape]].
    destruct (IH Hl') as [os [Hos Hall]].
    exists (o :: os). split; [|constructor; assumption].
    simpl. rewrite Ho, bind_inr, Hos. reflexivity.
Qed.

Lemma check_all_app_ok st l1 l2 o :
  check_all st l1 = (o, inr tt) ->
  check_all st (l1 ++ l2) = (o ++ fst (check_all st l2), snd (check_all st l2)).
Proof.
  revert o; induction l1 as [|q l1 IH]; intros o H.
  - simpl in H. injection H as <-. simpl. destruct (check_all st l2); reflexivity.
  - simpl in H. apply bind_ok_inv in H as [o1 [[] [o2 [H1 [H2 ->]]]]].
    simpl. rewrite H1, bind_inr, (IH _ H2). simpl. rewrite app_assoc.
    reflexivity.
Qed.

Lemma check_all_lines st l x :
  In x (fst (check_all st l)) ->
  (exists q, In q l /\ (x = exists_line q \/ x = missing_line q)) \/
  starts_space x = true.
Proof.
  induction l as [|q l IH]; simpl; [contradiction|]. intros Hx.
  destruct (check_one_cases st q) as
      [[Hs Hc]|[[Hs [He Hc]]|[[Hs [He [e [Hr Hc]]]]|[Hs [He [c [Hr Hc]]]]]]];
    rewrite Hc in Hx; rewrite ?bind_inr, ?bind_inl in Hx; simpl in Hx.
  - destruct Hx as [<-|Hx]; [left; exists q; auto|].
    destruct (IH Hx) as [[q' [Hq' Hl]]|Hsp]; [left; exists q'; auto|auto].
  - destruct Hx as [<-|Hx]; [left; exists q; auto|].
    destruct (IH Hx) as [[q' [Hq' Hl]]|Hsp]; [left; exists q'; auto|auto].
  - destruct Hx as [<-|[]]. left; exists q; auto.
  - destruct Hx as [<-|Hx]; [left; exists q; auto|].
    apply in_app_or in Hx as [Hx|Hx].
    + right. pose proof (issue_block_space (go_syntax_issues c)) as Hsp.
      rewrite Forall_forall in Hsp. exact (Hsp x Hx).
    + destruct (IH Hx) as [[q' [Hq' Hl]]|Hsp]; [left; exists q'; auto|auto].
Qed.

Lemma validate_eq st :
  validate_snapshot_command st =
  match check_all st files_to_check with
  | (oa, inl e) => (header_lines ++ oa, inl e)
  | (oa, inr _) =>
      match check_main_go st with
      | (om, inl e) => (header_lines ++ oa ++ om, inl e)
      | (om, inr _) => (header_lines ++ oa ++ om ++ summary_lines, inr tt)
      end
  end.
Proof.
  unfold validate_snapshot_command.
  remember (check_all st files_to_check) as ca eqn:Hca.
  remember (check_main_go st) as cm eqn:Hcm.
  destruct ca as [oa [e|[]]]; [reflexivity|].
  destruct cm as [om [e|[]]]; [reflexivity|].
  unfold print. rewrite !bind_inr. simpl.
  reflexivity.
Qed.

Lemma string_length_app (a b : string) :
  String.length (a ++ b) = String.length a + String.length b.
Proof. induction a; simpl; auto. Qed.

Lemma append_cancel_l (t a b : string) : (t ++ a = t ++ b)%string -> a = b.
Proof. induction t; simpl; intros H; [exact H|]. injection H; auto. Qed.

Lemma append_cancel_r (a b t : string) : (a ++ t = b ++ t)%string -> a = b.
Proof.
  intros H.
  assert (Hl : String.length a = String.length b).
  { apply (f_equal String.length) in H. rewrite !string_length_app in H. lia. }
  revert b H Hl. induction a as [|c a IH]; intros [|d b] H Hl;
    simpl in *; try discriminate; auto.
  injection H as -> H. f_equal. apply IH; auto.
Qed.

Lemma missing_line_inj p q : missing_line q = missing_line p -> q = p.
Proof.
  unfold missing_line. intros H. apply append_cancel_l in H.
  apply append_cancel_r in H. exact H.
Qed.

Lemma count_block p q b o :
  block_shape q b o ->
  count_occ string_dec o (missing_line p) =
  if String.eqb q p && negb b then 1 else 0.
Proof.
  unfold block_shape. destruct b.
  - intros [rest [-> Hrest]]. rewrite andb_false_r. cbn [count_occ].
    destruct (string_dec (exists_line q) (missing_line p)) as [E|_].
    { unfold exists_line, missing_line in E. simpl in E. discriminate E. }
    induction Hrest as [|l r Hl _ IH]; [reflexivity|]. cbn [count_occ].
    destruct (string_dec l (missing_line p)) as [->|_]; [|exact IH].
    unfold missing_line in Hl. simpl in Hl. discriminate Hl.
  - intros ->. rewrite andb_true_r. cbn [count_occ].
    destruct (string_dec (missing_line q) (missing_line p)) as [E|E];
    destruct (String.eqb_spec q p) as [Q|Q]; subst; auto.
    + apply missing_line_inj in E. contradiction.
    + congruence.
Qed.

Lemma main_go_ready st :
  checked_files_readable st ->
  exists om, check_main_go st = (om, inr tt) /\
             main_shape (stat_ok st main_go_path) om.
Proof.
  intros Hread. unfold main_shape.
  destruct (check_main_go_cases st) as
      [[Hs Hc]|[[Hs [e [Hr Hc]]]|[Hs [c [Hr Hc]]]]]; rewrite Hs.
  - exists []. split; [exact Hc|reflexivity].
  - destruct (Hread main_go_path) as [c Hr']; [simpl; tauto|exact Hs|].
    congruence.
  - exists (main_lines c). split; [exact Hc|]. unfold main_lines.
    do 2 eexists. split; [reflexivity|].
    split; [destruct (contains _ c); auto|destruct (contains _ c); auto].
Qed.

Lemma validate_complete st :
  checked_files_readable st ->
  exists os om,
    validate_snapshot_command st =
      (header_lines ++ concat os ++ om ++ summary_lines, inr tt) /\
    Forall2 (fun q o => block_shape q (stat_ok st q) o) files_to_check os /\
    main_shape (stat_ok st main_go_path) om.
Proof.
  intros Hread.
  assert (Hall : Forall (file_ready st) files_to_check).
  { apply Forall_forall. intros q Hq Hs _.
    apply Hread; [apply in_or_app; left; exact Hq|exact Hs]. }
  destruct (check_all_ready st _ Hall) as [os [Hos Hf]].
  destruct (main_go_ready st Hread) as [om [Hom Hm]].
  exists os, om. split; [|split; assumption].
  rewrite validate_eq, Hos, Hom. reflexivity.
Qed.

Lemma missing_count_one st :
  checked_files_readable st ->
  forall p, In p files_to_check -> stat_ok st p = false ->
  count_occ string_dec (fst (validate_snapshot_command st)) (missing_line p) = 1.
Proof.
  intros Hread p Hp Hs.
  destruct (validate_complete st Hread) as [os [om [Hv [Hf Hm]]]].
  rewrite Hv. cbn [fst].
  inversion Hf as [|q1 o1 l1 os1 H1 Hf1]; subst.
  inversion Hf1 as [|q2 o2 l2 os2 H2 Hf2]; subst.
  inversion Hf2 as [|q3 o3 l3 os3 H3 Hf3]; subst.
  inversion Hf3 as [|q4 o4 l4 os4 H4 Hf4]; subst.
  inversion Hf4; subst.
  cbn [concat]. rewrite app_nil_r, !count_occ_app.
  rewrite (count_block p _ _ o1 H1), (count_block p _ _ o2 H2),
    (count_block p _ _ o3 H3), (count_block p _ _ o4 H4).
  unfold main_shape in Hm.
  destruct (stat_ok st main_go_path);
    [destruct Hm as [a [c [-> [Ha Hc]]]]; destruct Ha as [->| ->];
     destruct Hc as [->| ->] | subst om];
  destruct Hp as [<-|[<-|[<-|[<-|[]]]]]; rewrite Hs; vm_compute; reflexivity.
Qed.

Lemma run_script_fst st : fst (run_script st) = fst (validate_snapshot_command st).
Proof. unfold run_script. destruct (validate_snapshot_command st); reflexivity. Qed.

(** A line [validate_snapshot_command] may print when [main.go] is absent. *)
Definition printable_without_main (x : string) : bool :=
  existsb (String.eqb x)
    (header_lines ++ summary_lines ++
     flat_map (fun q => [exists_line q; missing_line q]) files_to_check) ||
  starts_space x.

(** Everything that could report on [main.go]. *)
Definition main_go_report_lines : list string :=
  [ import_ok_line; import_missing_line; command_ok_line; command_missing_line;
    missing_line main_go_path ].

Lemma validate_lines_without_main st x :
  stat_ok st main_go_path = false ->
  In x (fst (validate_snapshot_command st)) -> printable_without_main x = true.
Proof.
  intros Hs Hx. unfold printable_without_main.
  apply orb_true_iff.
  assert (Hm : check_main_go st = ([], inr tt)).
  { destruct (check_main_go_cases st) as
        [[_ Hc]|[[Hs' _]|[Hs' _]]]; [exact Hc|congruence|congruence]. }
  assert (Hin : forall l, In x l -> existsb (String.eqb x) l = true).
  { intros l Hl. apply existsb_exists. exists x. split; [exact Hl|].
    apply String.eqb_refl. }
  rewrite validate_eq, Hm in Hx.
  pose proof (check_all_lines st files_to_check x) as Hlines.
  assert (Hoa : In x (fst (check_all st files_to_check)) ->
                existsb (String.eqb x)
                  (flat_map (fun q => [exists_line q; missing_line q])
                     files_to_check) = true \/ starts_space x = true).
  { intros Hx'. destruct (Hlines Hx') as [[q [Hq [-> | ->]]]|Hsp]; auto;
      left; apply Hin, in_flat_map; exists q; simpl; auto. }
  destruct (check_all st files_to_check) as [oa [e|[]]]; cbn [fst] in Hx, Hoa.
  - apply in_app_or in Hx as [Hx|Hx].
    + left. apply Hin, in_or_app. left. exact Hx.
    + destruct (Hoa Hx) as [Hq|Hq]; [left|right; exact Hq].
      rewrite !existsb_app, Hq, !orb_true_r. reflexivity.
  - rewrite app_nil_l in Hx.
    apply in_app_or in Hx as [Hx|Hx]; [|apply in_app_or in Hx as [Hx|Hx]].
    + left. apply Hin, in_or_app. left. exact Hx.
    + destruct (Hoa Hx) as [Hq|Hq]; [left|right; exact Hq].
      rewrite !existsb_app, Hq, !orb_true_r. reflexivity.
    + left. apply Hin, in_or_app. right. apply in_or_app. left. exact Hx.
Qed.

(** ** Properties of [validate_snapshot_command] and of the script *)

(** C1: whenever the checked files that exist are readable, the run ends
    with the same sixteen lines ("Validation Summary" and "Features
    implemented" blocks), whatever the files hold or whether they exist. *)
Theorem validate_summary_fixed st1 st2 :
  checked_files_readable st1 -> checked_files_readable st2 ->
  exists pre1 pre2,
    validate_snapshot_command st1 = (pre1 ++ summary_lines, inr tt) /\
    validate_snapshot_command st2 = (pre2 ++ summary_lines, inr tt).
Proof.
  intros H1 H2.
  destruct (validate_complete st1 H1) as [os1 [om1 [Hv1 _]]].
  destruct (validate_complete st2 H2) as [os2 [om2 [Hv2 _]]].
  exists (header_lines ++ concat os1 ++ om1), (header_lines ++ concat os2 ++ om2).
  rewrite Hv1, Hv2, <- !app_assoc. split; reflexivity.
Qed.

(** C7: whenever the checked files that exist are readable, the script
    exits with 0, and each of the four expected files that is missing is
    reported by exactly one warning line. *)
Theorem run_script_exit_zero st :
  checked_files_readable st ->
  snd (run_script st) = 0 /\
  (forall p, In p files_to_check -> stat_ok st p = false ->
   count_occ string_dec (fst (run_script st)) (missing_line p) = 1).
Proof.
  intros Hread. split.
  - destruct (validate_complete st Hread) as [os [om [Hv _]]].
    unfold run_script. rewrite Hv. reflexivity.
  - intros p Hp Hs. rewrite run_script_fst.
    apply missing_count_one; assumption.
Qed.

(** C8: when an expected [.go] file exists but reading it raises [e] (the
    earlier ones being readable), [check_go_syntax] raises [e], nothing
    catches it, and the run stops right after that file's confirmation
    line with exit code 1. *)
Theorem validate_unreadable_aborts st pre p post e :
  files_to_check = pre ++ p :: post ->
  Forall (file_ready st) pre ->
  endswith ".go" p = true -> stat_ok st p = true ->
  read_text st p = ([], inl e) ->
  check_go_syntax st p = ([], inl e) /\
  (exists out,
     validate_snapshot_command st = (out ++ [exists_line p], inl e)) /\
  snd (run_script st) = 1.
Proof.
  intros Hsplit Hpre He Hs Hr.
  assert (Hcg : check_go_syntax st p = ([], inl e)).
  { unfold check_go_syntax. rewrite Hr. reflexivity. }
  assert (Hone : check_one st p = ([exists_line p], inl e)).
  { destruct (check_one_cases st p) as
        [[Hs' _]|[[_ [He' _]]|[[_ [_ [e' [Hr' Hc]]]]|[_ [_ [c [Hr' _]]]]]]];
      congruence. }
  destruct (check_all_ready st pre Hpre) as [os [Hos _]].
  assert (Hv : validate_snapshot_command st =
               ((header_lines ++ concat os) ++ [exists_line p], inl e)).
  { rewrite validate_eq, Hsplit, (check_all_app_ok _ _ _ _ Hos).
    cbn [check_all]. rewrite Hone, bind_inl. simpl.
    reflexivity. }
  split; [exact Hcg|]. split.
  - eexists. exact Hv.
  - unfold run_script. rewrite Hv. reflexivity.
Qed.

(** C10: with [/workspace/main.go] absent, no line reporting on it is
    printed (neither the import nor the command line, confirmation or
    warning, nor a missing-file warning for it), while each missing expected
    file does get its warning when the checked files that exist are
    readable. *)
Theorem validate_silent_on_absent_main st :
  stat_ok st main_go_path = false ->
  (forall x, In x main_go_report_lines -> ~ In x (fst (run_script st))) /\
  (checked_files_readable st ->
   forall p, In p files_to_check -> stat_ok st p = false ->
   In (missing_line p) (fst (run_script st))).
Proof.
  intros Hs. split.
  - intros x Hx Hin. rewrite run_script_fst in Hin.
    apply (validate_lines_without_main st x Hs) in Hin.
    destruct Hx as [<-|[<-|[<-|[<-|[<-|[]]]]]]; vm_compute in Hin;
      discriminate Hin.
  - intros Hread p Hp Hsp. rewrite run_script_fst.
    apply (count_occ_In string_dec). rewrite missing_count_one; auto.
Qed.

(** ** Concrete runs *)

Definition fs_of (entries : list (string * node)) : fs :=
  fun p => match find (fun e => String.eqb (fst e) p) entries with
           | Some (_, n) => Some n
           | None => None
           end.

Definition empty_fs : fs := fs_of [].

Definition good_go : string :=
  "package main" ++ nl ++ "func f() { if true { } }".

(** All files present; [upload.go] lacks its package line. *)
Definition full_fs : fs :=
  fs_of [ ("/workspace/cmd/snapshot/snapshot.go", Reg true (Some good_go));
          ("/workspace/cmd/snapshot/upload.go", Reg true (Some "func f() {"));
          ("/workspace/cmd/snapshot/upload_test.go", Reg true (Some good_go));
          ("/workspace/cmd/snapshot/README.md", Reg true (Some "# snapshot"));
          ("/workspace/main.go", Reg true (Some "snapshot.Snapshot(")) ].

(** [upload.go] exists but cannot be opened. *)
Definition unreadable_upload_fs : fs :=
  fs_of [ ("/workspace/cmd/snapshot/snapshot.go", Reg true (Some good_go));
          ("/workspace/cmd/snapshot/upload.go", Reg false (Some good_go)) ].

Ltac checked_readable :=
  intros p Hp Hs; simpl in Hp;
  repeat (destruct Hp as [<-|Hp]; [vm_compute in Hs; try discriminate Hs;
                                  eexists; vm_compute; reflexivity|]);
  destruct Hp.

Lemma validate_summary_fixed_witness :
  checked_files_readable empty_fs /\ checked_files_readable full_fs /\
  exists pre1 pre2,
    validate_snapshot_command empty_fs = (pre1 ++ summary_lines, inr tt) /\
    validate_snapshot_command full_fs = (pre2 ++ summary_lines, inr tt).
Proof.
  assert (H1 : checked_files_readable empty_fs) by checked_readable.
  assert (H2 : checked_files_readable full_fs) by checked_readable.
  split; [exact H1|split; [exact H2|]].
  exact (validate_summary_fixed empty_fs full_fs H1 H2).
Defined.

(** A package line with a no-break space (U+00A0) and the name
    [éclair]. *)
Definition eclair_ws : list Z := [160%Z].

Definition eclair_id : list Z := [233; 99; 108; 97; 105; 114]%Z.

Definition eclair_go : string :=
  "package" ++ utf8_encode eclair_ws ++ utf8_encode eclair_id ++ nl ++
  "func f() { if true { } }".

Lemma check_go_syntax_no_issues_witness :
  count_char "{" eclair_go = count_char "}" eclair_go /\
  count_char "(" eclair_go = count_char ")" eclair_go /\
  is_whitespace_run eclair_ws = true /\ is_identifier eclair_id = true /\
  go_syntax_issues eclair_go = [].
Proof.
  assert (Hb : count_char "{" eclair_go = count_char "}" eclair_go)
    by (vm_compute; reflexivity).
  assert (Hp : count_char "(" eclair_go = count_char ")" eclair_go)
    by (vm_compute; reflexivity).
  assert (Hw : is_whitespace_run eclair_ws = true) by (vm_compute; reflexivity).
  assert (Hi : is_identifier eclair_id = true) by (vm_compute; reflexivity).
  split; [exact Hb|split; [exact Hp|split; [exact Hw|split; [exact Hi|]]]].
  exact (proj1 (check_go_syntax_no_issues eclair_go "" eclair_ws eclair_id
                  (nl ++ "func f() { if true { } }") Hb Hp eq_refl
                  (or_introl eq_refl) Hw Hi)).
Defined.

Lemma check_go_syntax_brace_issue_witness :
  count_char "{" "func f() {" <> count_char "}" "func f() {" /\
  filter is_brace_issue (go_syntax_issues "func f() {") =
    [braces_msg 1 0].
Proof.
  assert (H : count_char "{" "func f() {" <> count_char "}" "func f() {")
    by (vm_compute; discriminate).
  split; [exact H|].
  exact (check_go_syntax_brace_issue "func f() {" H).
Defined.

Lemma check_go_syntax_independent_witness :
  read_text full_fs "/workspace/cmd/snapshot/upload.go" =
    ([], inr "func f() {") /\
  check_go_syntax full_fs "/workspace/cmd/snapshot/upload.go" =
    ([], inr (independent_issues "func f() {")).
Proof.
  assert (H : read_text full_fs "/workspace/cmd/snapshot/upload.go" =
              ([], inr "func f() {")) by (vm_compute; reflexivity).
  split; [exact H|].
  exact (proj2 (check_go_syntax_independent "func f() {") _ _ H).
Defined.

(** A link pointing at itself. *)
Definition loop_fs : fs :=
  fun p => if String.eqb p "/a" then Some (Symlink "/a") else None.

Lemma loop_fs_links p q : links_to loop_fs p q -> p = "/a" -> q = "/a".
Proof.
  induction 1 as [p|p t q Hp Hl IH]; intros Ha; [exact Ha|].
  subst p. vm_compute in Hp. injection Hp as <-. apply IH. reflexivity.
Qed.

Lemma check_file_exists_total_witness :
  empty_fs main_go_path = None /\
  check_file_exists empty_fs main_go_path = ([], inr false) /\
  dangling dangling_main_fs main_go_path /\
  check_file_exists dangling_main_fs main_go_path = ([], inr false) /\
  looping loop_fs "/a" /\ check_file_exists loop_fs "/a" = ([], inr false) /\
  has_nul main_go_path = false /\
  full_fs main_go_path = Some (Reg true (Some "snapshot.Snapshot(")) /\
  check_file_exists full_fs main_go_path = ([], inr true).
Proof.
  assert (Hd : dangling dangling_main_fs main_go_path).
  { exists "/nonexistent". split; [|vm_compute; reflexivity].
    eapply links_step; [vm_compute; reflexivity|apply links_refl]. }
  assert (Hl : looping loop_fs "/a").
  { intros q Hq. rewrite (loop_fs_links _ _ Hq eq_refl).
    exists "/a". vm_compute. reflexivity. }
  assert (Hn : has_nul main_go_path = false) by (vm_compute; reflexivity).
  assert (Hf : full_fs main_go_path = Some (Reg true (Some "snapshot.Snapshot(")))
    by (vm_compute; reflexivity).
  split; [reflexivity|].
  split; [exact (proj1 (proj2 (check_file_exists_total empty_fs main_go_path))
                   eq_refl)|].
  split; [exact Hd|].
  split; [exact (proj1 (proj2 (proj2
                   (check_file_exists_total dangling_main_fs main_go_path)))
                   (or_introl Hd))|].
  split; [exact Hl|].
  split; [exact (proj1 (proj2 (proj2 (check_file_exists_total loop_fs "/a")))
                   (or_intror Hl))|].
  split; [exact Hn|]. split; [exact Hf|].
  exact (proj2 (proj2 (proj2 (check_file_exists_total full_fs main_go_path)))
           _ Hn Hf (fun t H => ltac:(discriminate H))).
Defined.

Lemma run_script_exit_zero_witness :
  checked_files_readable empty_fs /\ snd (run_script empty_fs) = 0 /\
  stat_ok empty_fs "/workspace/cmd/snapshot/README.md" = false /\
  count_occ string_dec (fst (run_script empty_fs))
    (missing_line "/workspace/cmd/snapshot/README.md") = 1.
Proof.
  assert (H : checked_files_readable empty_fs) by checked_readable.
  assert (Hs : stat_ok empty_fs "/workspace/cmd/snapshot/README.md" = false)
    by reflexivity.
  destruct (run_script_exit_zero empty_fs H) as [H0 Hc].
  split; [exact H|split; [exact H0|split; [exact Hs|]]].
  apply Hc; [simpl; tauto|exact Hs].
Defined.

Lemma validate_unreadable_aborts_witness :
  exists out,
    validate_snapshot_command unreadable_upload_fs =
      (out ++ [exists_line "/workspace/cmd/snapshot/upload.go"],
       inl (OSError EACCES)).
Proof.
  assert (Hpre : Forall (file_ready unreadable_upload_fs)
                   ["/workspace/cmd/snapshot/snapshot.go"]).
  { constructor; [|constructor]. intros _ _. eexists. vm_compute. reflexivity. }
  destruct (validate_unreadable_aborts unreadable_upload_fs
              ["/workspace/cmd/snapshot/snapshot.go"]
              "/workspace/cmd/snapshot/upload.go"
              ["/workspace/cmd/snapshot/upload_test.go";
               "/workspace/cmd/snapshot/README.md"]
              (OSError EACCES) eq_refl Hpre eq_refl eq_refl eq_refl)
    as [_ [Hv _]].
  exact Hv.
Defined.

Lemma validate_silent_on_absent_main_witness :
  stat_ok empty_fs main_go_path = false /\
  ~ In import_missing_line (fst (run_script empty_fs)).
Proof.
  assert (Hs : stat_ok empty_fs main_go_path = false) by reflexivity.
  split; [exact Hs|].
  apply (proj1 (validate_silent_on_absent_main empty_fs Hs)).
  simpl; tauto.
Defined.

(** ** Further properties of the checker *)

Lemma match_here_empty : match_here "" = false.
Proof. reflexivity. Qed.

Lemma search_ml_inv b s :
  search_ml b s = true ->
  exists pre r, s = (pre ++ r)%string /\ bol_after b pre = true /\
                match_here r = true.
Proof.
  revert b; induction s as [|c t IH]; intros b H.
  - simpl in H. rewrite match_here_empty, andb_false_r in H. discriminate.
  - cbn [search_ml] in H. apply orb_true_iff in H as [H|H].
    + apply andb_true_iff in H as [Hb Hm].
      exists EmptyString, (String c t). auto.
    + destruct (IH _ H) as [pre [r [-> [Hb Hm]]]].
      exists (String c pre), r. auto.
Qed.

Lemma bol_after_inv b pre :
  bol_after b pre = true ->
  (pre = EmptyString /\ b = true) \/ exists pre', pre = (pre' ++ nl)%string.
Proof.
  revert b; induction pre as [|c t IH]; intros b H; simpl in H; [auto|].
  right. destruct (IH _ H) as [[-> Hc]|[pre' ->]].
  - apply Ascii.eqb_eq in Hc. subst c. exists EmptyString. reflexivity.
  - exists (String c pre'). reflexivity.
Qed.

Lemma search_ml_mono b s t :
  search_ml b s = true -> search_ml b (s ++ t) = true.
Proof.
  revert b; induction s as [|c s IH]; intros b H.
  - simpl in H. rewrite match_here_empty, andb_false_r in H. discriminate.
  - cbn [search_ml] in H. apply orb_true_iff in H as [H|H].
    + apply andb_true_iff in H as [Hb Hm].
      change (String c s ++ t)%string with (String c (s ++ t)).
      cbn [search_ml]. rewrite Hb.
      replace (match_here (String c (s ++ t))) with true;
        [reflexivity|symmetry; exact (match_here_app (String c s) t Hm)].
    + change (String c s ++ t)%string with (String c (s ++ t)).
      cbn [search_ml]. rewrite (IH _ H). apply orb_true_r.
Qed.

Lemma count_char_app ch a b :
  count_char ch (a ++ b) = count_char ch a + count_char ch b.
Proof. induction a as [|c a IH]; simpl; [reflexivity|]. rewrite IH. lia. Qed.

Lemma go_syntax_issues_nil_iff c :
  go_syntax_issues c = [] <->
  count_char "{" c = count_char "}" c /\
  count_char "(" c = count_char ")" c /\ package_re_search c = true.
Proof.
  unfold go_syntax_issues.
  destruct (Nat.eqb_spec (count_char "{" c) (count_char "}" c));
  destruct (Nat.eqb_spec (count_char "(" c) (count_char ")" c));
  destruct (package_re_search c); simpl; split; intros H;
    try discriminate; try reflexivity; intuition congruence.
Qed.

(** The package check reports nothing exactly when some line (the text
    start or a position after ['\n']) begins with [package] and the text
    after it decodes to at least one whitespace character (a newline
    included) followed by a word character, both in Python's Unicode
    sense. *)
Theorem package_re_search_iff content :
  package_re_search content = true <->
  exists pre r w x rest,
    content = (pre ++ "package" ++ r)%string /\ starts_line pre /\
    utf8_decode r = w ++ x :: rest /\
    is_whitespace_run w = true /\ py_isword x = true.
Proof.
  split.
  - intros H. destruct (search_ml_inv _ _ H) as [pre [r0 [-> [Hb Hm]]]].
    pose proof Hm as Hp. unfold match_here in Hp.
    apply andb_true_iff in Hp as [Hp _].
    destruct (prefix_app_inv _ _ Hp) as [r ->].
    rewrite match_here_unfold in Hm.
    destruct (utf8_decode r) as [|c t] eqn:Hd; [discriminate|].
    apply andb_true_iff in Hm as [Hc Ht].
    destruct (spaces_then_word_inv _ Ht) as [w [x [rest [-> [Hw Hx]]]]].
    exists pre, r, (c :: w), x, rest. split; [reflexivity|].
    split; [|split; [exact Hd|split; [simpl; rewrite Hc; exact Hw|exact Hx]]].
    destruct (bol_after_inv _ _ Hb) as [[-> _]|[pre' ->]];
      [left; reflexivity|right; exists pre'; reflexivity].
  - intros [pre [r [w [x [rest [-> [Hpre [Hd [Hw Hx]]]]]]]]].
    unfold package_re_search. apply search_ml_app.
    assert (Hb : bol_after true pre = true).
    { destruct Hpre as [-> | [pre' ->]]; [reflexivity|apply bol_after_nl]. }
    rewrite Hb. apply search_ml_here. rewrite match_here_unfold, Hd.
    destruct w as [|c w]; [discriminate|]. simpl in Hw.
    apply andb_true_iff in Hw as [Hc Hw]. cbn [List.app]. rewrite Hc.
    apply spaces_then_word_word; assumption.
Qed.

(** Appending a text without issues to a text without issues gives a text
    without issues. *)
Theorem go_syntax_issues_concat a b :
  go_syntax_issues a = [] -> go_syntax_issues b = [] ->
  go_syntax_issues (a ++ b) = [].
Proof.
  rewrite !go_syntax_issues_nil_iff. intros [Ha1 [Ha2 Ha3]] [Hb1 [Hb2 _]].
  rewrite !count_char_app. split; [lia|split; [lia|]].
  apply search_ml_mono, Ha3.
Qed.

(** ["package é"] and a newline, then ["package x"]. *)
Definition concat_left : string :=
  "package" ++ utf8_encode [32; 233]%Z ++ nl.

Definition concat_right : string := "package x".

Lemma go_syntax_issues_concat_witness :
  go_syntax_issues concat_left = [] /\
  go_syntax_issues concat_right = [] /\
  go_syntax_issues (concat_left ++ concat_right) = [].
Proof.
  assert (Ha : go_syntax_issues concat_left = []) by (vm_compute; reflexivity).
  assert (Hb : go_syntax_issues concat_right = []) by (vm_compute; reflexivity).
  split; [exact Ha|split; [exact Hb|]].
  exact (go_syntax_issues_concat _ _ Ha Hb).
Defined.

(** The run does not raise: every present expected [.go] file and, if
    present, [main.go] can be read. *)
Definition run_ok_condition (st : fs) : Prop :=
  Forall (file_ready st) files_to_check /\
  (stat_ok st main_go_path = true ->
   exists c, read_text st main_go_path = ([], inr c)).

(** A line the per-file loop can print. *)
Definition loop_line (x : string) : bool :=
  existsb (String.eqb x)
    (flat_map (fun q => [exists_line q; missing_line q]) files_to_check) ||
  starts_space x.

Lemma go_syntax_issues_length c : length (go_syntax_issues c) <= 3.
Proof.
  unfold go_syntax_issues.
  destruct (Nat.eqb (count_char "{" c) (count_char "}" c));
  destruct (Nat.eqb (count_char "(" c) (count_char ")" c));
  destruct (package_re_search c); simpl; lia.
Qed.

Lemma check_one_ok_ready st q :
  snd (check_one st q) = inr tt -> file_ready st q.
Proof.
  intros H Hs He.
  destruct (check_one_cases st q) as
      [[Hs' _]|[[_ [He' _]]|[[_ [_ [e [_ Hc]]]]|[_ [_ [c [Hr _]]]]]]];
    try congruence.
  - rewrite Hc in H. discriminate.
  - exists c. exact Hr.
Qed.

Lemma check_all_ok_ready st l :
  snd (check_all st l) = inr tt -> Forall (file_ready st) l.
Proof.
  induction l as [|q l IH]; intros H; [constructor|].
  simpl in H. destruct (check_one st q) as [o [e|[]]] eqn:Hq;
    [discriminate|].
  rewrite bind_inr in H. simpl in H. constructor; [|exact (IH H)].
  apply check_one_ok_ready. rewrite Hq. reflexivity.
Qed.

Lemma main_go_ready_cond st :
  (stat_ok st main_go_path = true ->
   exists c, read_text st main_go_path = ([], inr c)) ->
  exists om, check_main_go st = (om, inr tt) /\
             main_shape (stat_ok st main_go_path) om.
Proof.
  intros Hread. unfold main_shape.
  destruct (check_main_go_cases st) as
      [[Hs Hc]|[[Hs [e [Hr Hc]]]|[Hs [c [Hr Hc]]]]]; rewrite Hs.
  - exists []. split; [exact Hc|reflexivity].
  - destruct (Hread Hs) as [c Hr']. congruence.
  - exists (main_lines c). split; [exact Hc|]. unfold main_lines.
    do 2 eexists. split; [reflexivity|].
    split; [destruct (contains _ c); auto|destruct (contains _ c); auto].
Qed.

Lemma validate_complete_cond st :
  run_ok_condition st ->
  exists os om,
    validate_snapshot_command st =
      (header_lines ++ concat os ++ om ++ summary_lines, inr tt) /\
    Forall2 (fun q o => block_shape q (stat_ok st q) o) files_to_check os /\
    main_shape (stat_ok st main_go_path) om.
Proof.
  intros [Hall Hmain].
  destruct (check_all_ready st _ Hall) as [os [Hos Hf]].
  destruct (main_go_ready_cond st Hmain) as [om [Hom Hm]].
  exists os, om. split; [|split; assumption].
  rewrite validate_eq, Hos, Hom. reflexivity.
Qed.

Lemma concat_block_lines st l os x :
  Forall2 (fun q o => block_shape q (stat_ok st q) o) l os ->
  In x (concat os) ->
  (exists q, In q l /\ (x = exists_line q \/ x = missing_line q)) \/
  starts_space x = true.
Proof.
  intros Hf. induction Hf as [|q o l os Hq Hf IH]; simpl; [contradiction|].
  intros Hx. apply in_app_or in Hx as [Hx|Hx].
  - unfold block_shape in Hq. destruct (stat_ok st q).
    + destruct Hq as [rest [-> Hrest]]. destruct Hx as [<-|Hx].
      * left. exists q. auto.
      * right. rewrite Forall_forall in Hrest. exact (Hrest x Hx).
    + subst o. destruct Hx as [<-|[]]. left. exists q. auto.
  - destruct (IH Hx) as [[q' [Hq' Hl]]|Hsp]; [left; exists q'; auto|auto].
Qed.

Lemma loop_line_of_block st os x :
  Forall2 (fun q o => block_shape q (stat_ok st q) o) files_to_check os ->
  In x (concat os) -> loop_line x = true.
Proof.
  intros Hf Hx. unfold loop_line. apply orb_true_iff.
  destruct (concat_block_lines st _ _ _ Hf Hx) as [[q [Hq Hl]]|Hsp];
    [left|right; exact Hsp].
  apply existsb_exists. exists x. split; [|apply String.eqb_refl].
  apply in_flat_map. exists q. split; [exact Hq|].
  destruct Hl as [-> | ->]; simpl; auto.
Qed.

Lemma exists_line_inj p q : exists_line q = exists_line p -> q = p.
Proof.
  unfold exists_line. intros H. apply append_cancel_l in H.
  apply append_cancel_r in H. exact H.
Qed.

Lemma count_block_exists p q b o :
  block_shape q b o ->
  count_occ string_dec o (exists_line p) =
  if String.eqb q p && b then 1 else 0.
Proof.
  unfold block_shape. destruct b.
  - intros [rest [-> Hrest]]. rewrite andb_true_r. cbn [count_occ].
    assert (Hr : count_occ string_dec rest (exists_line p) = 0).
    { induction Hrest as [|l r Hl _ IH]; [reflexivity|]. cbn [count_occ].
      destruct (string_dec l (exists_line p)) as [->|_]; [|exact IH].
      unfold exists_line in Hl. simpl in Hl. discriminate Hl. }
    rewrite Hr.
    destruct (string_dec (exists_line q) (exists_line p)) as [E|E];
    destruct (String.eqb_spec q p) as [Q|Q]; subst; auto.
    + apply exists_line_inj in E. contradiction.
    + congruence.
  - intros ->. rewrite andb_false_r. cbn [count_occ].
    destruct (string_dec (missing_line q) (exists_line p)) as [E|_];
      [|reflexivity].
    unfold exists_line, missing_line in E. simpl in E. discriminate E.
Qed.

Lemma not_in_by_eqb x l : existsb (String.eqb x) l = false -> ~ In x l.
Proof.
  intros H Hin. assert (existsb (String.eqb x) l = true) as H'.
  { apply existsb_exists. exists x. split; [exact Hin|apply String.eqb_refl]. }
  congruence.
Qed.

Lemma in_run_with_main st os lines x :
  Forall2 (fun q o => block_shape q (stat_ok st q) o) files_to_check os ->
  loop_line x = false ->
  existsb (String.eqb x) (header_lines ++ summary_lines) = false ->
  (In x (header_lines ++ concat os ++ lines ++ summary_lines) <-> In x lines).
Proof.
  intros Hf Hl Hhs. rewrite existsb_app, orb_false_iff in Hhs.
  destruct Hhs as [Hh Hs].
  apply not_in_by_eqb in Hh, Hs.
  rewrite !in_app_iff. split; [|tauto].
  intros [H|[H|[H|H]]]; try contradiction; [|exact H].
  rewrite (loop_line_of_block st os x Hf H) in Hl. discriminate.
Qed.

(** A path not ending in [.go] (here [README.md]) is never opened: the loop
    prints its one status line and never raises for it. *)
Theorem check_one_non_go st q :
  endswith ".go" q = false ->
  check_one st q =
    ([if stat_ok st q then exists_line q else missing_line q], inr tt).
Proof.
  intros He.
  destruct (check_one_cases st q) as
      [[Hs Hc]|[[Hs [_ Hc]]|[[_ [He' _]]|[_ [He' _]]]]];
    try congruence; rewrite Hc, Hs; reflexivity.
Qed.

(** One iteration of the loop prints at most five lines: the status line,
    then the pass line, or the warning header and at most three issues. *)
Theorem check_one_at_most_five_lines st q :
  length (fst (check_one st q)) <= 5.
Proof.
  destruct (check_one_cases st q) as
      [[_ Hc]|[[_ [_ Hc]]|[[_ [_ [e [_ Hc]]]]|[_ [_ [c [_ Hc]]]]]]];
    rewrite Hc; simpl; try lia.
  pose proof (go_syntax_issues_length c) as Hl.
  unfold issue_block. destruct (go_syntax_issues c); simpl in *;
    rewrite ?length_map; lia.
Qed.

(** The script exits with 0 exactly when every present expected [.go] file
    and, if present, [main.go] can be read; otherwise it exits with 1. *)
Theorem run_script_exit_zero_iff st :
  snd (run_script st) = 0 <-> run_ok_condition st.
Proof.
  split.
  - intros H.
    assert (Hv : snd (validate_snapshot_command st) = inr tt).
    { unfold run_script in H. destruct (validate_snapshot_command st) as
        [o [e|[]]]; [discriminate|reflexivity]. }
    rewrite validate_eq in Hv.
    destruct (check_all st files_to_check) as [oa [e|[]]] eqn:Ha;
      [discriminate|].
    destruct (check_main_go st) as [om [e|[]]] eqn:Hm; [discriminate|].
    split.
    + apply check_all_ok_ready. rewrite Ha. reflexivity.
    + intros Hs.
      destruct (check_main_go_cases st) as
          [[Hs' _]|[[_ [e [_ Hc]]]|[_ [c [Hr _]]]]]; [congruence|congruence|].
      exists c. exact Hr.
  - intros Hc. destruct (validate_complete_cond st Hc) as [os [om [Hv _]]].
    unfold run_script. rewrite Hv. reflexivity.
Qed.

(** When the run does not raise, each expected file has exactly one status
    line: the confirmation if it exists, the warning if it does not. *)
Theorem status_line_counts st :
  run_ok_condition st ->
  forall p, In p files_to_check ->
  count_occ string_dec (fst (run_script st)) (exists_line p) =
    (if stat_ok st p then 1 else 0) /\
  count_occ string_dec (fst (run_script st)) (missing_line p) =
    (if stat_ok st p then 0 else 1).
Proof.
  intros Hc p Hp.
  destruct (validate_complete_cond st Hc) as [os [om [Hv [Hf Hm]]]].
  rewrite run_script_fst, Hv. cbn [fst].
  inversion Hf as [|q1 o1 l1 os1 H1 Hf1]; subst.
  inversion Hf1 as [|q2 o2 l2 os2 H2 Hf2]; subst.
  inversion Hf2 as [|q3 o3 l3 os3 H3 Hf3]; subst.
  inversion Hf3 as [|q4 o4 l4 os4 H4 Hf4]; subst.
  inversion Hf4; subst.
  cbn [concat]. rewrite app_nil_r, !count_occ_app.
  rewrite (count_block_exists p _ _ o1 H1), (count_block_exists p _ _ o2 H2),
    (count_block_exists p _ _ o3 H3), (count_block_exists p _ _ o4 H4),
    (count_block p _ _ o1 H1), (count_block p _ _ o2 H2),
    (count_block p _ _ o3 H3), (count_block p _ _ o4 H4).
  unfold main_shape in Hm.
  destruct (stat_ok st main_go_path);
    [destruct Hm as [a [c [-> [Ha Hc']]]]; destruct Ha as [->| ->];
     destruct Hc' as [->| ->] | subst om];
  destruct Hp as [<-|[<-|[<-|[<-|[]]]]];
  repeat match goal with |- context [stat_ok st ?q] => destruct (stat_ok st q) end;
  vm_compute; split; reflexivity.
Qed.

(** With the expected [.go] files in order and [main.go] readable with
    content [c], the import line is a confirmation exactly when [c] contains
    the import path, and the command line exactly when [c] contains
    [snapshot.Snapshot(]; each outcome is printed, never both. *)
Theorem main_go_reports st c :
  Forall (file_ready st) files_to_check ->
  stat_ok st main_go_path = true ->
  read_text st main_go_path = ([], inr c) ->
  (In import_ok_line (fst (run_script st)) <->
     contains "github.com/okteto/okteto/cmd/snapshot" c = true) /\
  (In import_missing_line (fst (run_script st)) <->
     contains "github.com/okteto/okteto/cmd/snapshot" c = false) /\
  (In command_ok_line (fst (run_script st)) <->
     contains "snapshot.Snapshot(" c = true) /\
  (In command_missing_line (fst (run_script st)) <->
     contains "snapshot.Snapshot(" c = false).
Proof.
  intros Hall Hs Hr.
  destruct (check_all_ready st _ Hall) as [os [Hos Hf]].
  assert (Hm : check_main_go st = (main_lines c, inr tt)).
  { destruct (check_main_go_cases st) as
        [[Hs' _]|[[_ [e [Hr' _]]]|[_ [c' [Hr' Hc]]]]]; congruence. }
  rewrite run_script_fst, validate_eq, Hos, Hm. cbn [fst].
  rewrite !(in_run_with_main st os (main_lines c)); try exact Hf;
    try (vm_compute; reflexivity).
  unfold main_lines.
  destruct (contains "github.com/okteto/okteto/cmd/snapshot" c);
  destruct (contains "snapshot.Snapshot(" c); simpl;
    intuition (try discriminate; auto).
Qed.

(** When [main.go] exists but cannot be read, the error escapes after the
    per-file loop: the summary is never printed and the exit code is 1. *)
Theorem main_go_unreadable_aborts st e :
  Forall (file_ready st) files_to_check ->
  stat_ok st main_go_path = true ->
  read_text st main_go_path = ([], inl e) ->
  (exists oa, validate_snapshot_command st = (header_lines ++ oa, inl e)) /\
  snd (run_script st) = 1 /\
  (forall x, In x summary_lines -> ~ In x (fst (run_script st))).
Proof.
  intros Hall Hs Hr.
  destruct (check_all_ready st _ Hall) as [os [Hos Hf]].
  assert (Hm : check_main_go st = ([], inl e)).
  { destruct (check_main_go_cases st) as
        [[Hs' _]|[[_ [e' [Hr' Hc]]]|[_ [c' [Hr' _]]]]]; try congruence. }
  assert (Hv : validate_snapshot_command st =
               (header_lines ++ concat os, inl e)).
  { rewrite validate_eq, Hos, Hm, app_nil_r. reflexivity. }
  split; [eexists; exact Hv|].
  split; [unfold run_script; rewrite Hv; reflexivity|].
  intros x Hx Hin. rewrite run_script_fst, Hv in Hin. cbn [fst] in Hin.
  assert (Hchk : forallb (fun y => negb (loop_line y) &&
                                   negb (existsb (String.eqb y) header_lines))
                         summary_lines = true) by (vm_compute; reflexivity).
  rewrite forallb_forall in Hchk. specialize (Hchk x Hx).
  apply andb_true_iff in Hchk as [Hl Hh]. apply negb_true_iff in Hl, Hh.
  apply in_app_or in Hin as [Hin|Hin].
  - exact (not_in_by_eqb _ _ Hh Hin).
  - rewrite (loop_line_of_block st os x Hf Hin) in Hl. discriminate.
Qed.

Lemma main_go_reports_witness :
  In import_missing_line (fst (run_script full_fs)) /\
  In command_ok_line (fst (run_script full_fs)).
Proof.
  assert (Hall : Forall (file_ready full_fs) files_to_check).
  { repeat constructor; intros _ _; eexists; vm_compute; reflexivity. }
  assert (Hs : stat_ok full_fs main_go_path = true) by reflexivity.
  assert (Hr : read_text full_fs main_go_path = ([], inr "snapshot.Snapshot("))
    by reflexivity.
  destruct (main_go_reports full_fs _ Hall Hs Hr) as [_ [Him [Hco _]]].
  split; [apply Him | apply Hco]; vm_compute; reflexivity.
Defined.

(** [main.go] is a directory: opening it raises. *)
Definition main_dir_fs : fs := fs_of [ ("/workspace/main.go", Dir) ].

Lemma main_go_unreadable_aborts_witness :
  snd (run_script main_dir_fs) = 1.
Proof.
  assert (Hall : Forall (file_ready main_dir_fs) files_to_check).
  { repeat constructor; intros Hs; vm_compute in Hs; discriminate Hs. }
  destruct (main_go_unreadable_aborts main_dir_fs (OSError EISDIR) Hall
              eq_refl eq_refl) as [_ [H _]].
  exact H.
Defined.

Lemma status_line_counts_witness :
  count_occ string_dec (fst (run_script full_fs))
    (exists_line "/workspace/cmd/snapshot/upload.go") = 1.
Proof.
  assert (Hc : run_ok_condition full_fs).
  { split; [repeat constructor; intros _ _; eexists; vm_compute; reflexivity|].
    intros _. eexists. reflexivity. }
  exact (proj1 (status_line_counts full_fs Hc
                  "/workspace/cmd/snapshot/upload.go" (or_intror (or_introl eq_refl)))).
Defined.

Lemma check_one_non_go_witness :
  check_one full_fs "/workspace/cmd/snapshot/README.md" =
    ([exists_line "/workspace/cmd/snapshot/README.md"], inr tt).
Proof.
  exact (check_one_non_go full_fs "/workspace/cmd/snapshot/README.md" eq_refl).
Defined.
